(** * go-gitlab-irc: the webhook handler and the channel routing

    A shallow embedding of the notification bridge.  The repository holds
    two variants of the program: the small one ([src/main.go], two event
    kinds, commit ids cut to 8 characters) is embedded in [Module V1]; the
    full one (six event kinds, commit ids cut to 7 characters) is embedded
    at top level.  Both share [contains], [sendMessage] and the routing
    table [Mapping], which are textually the same in the two files.

    Conventions.
    - A Go [string] is a [string] of bytes; [==] is [String.eqb].
    - A Go [int] is a [Z]; the only arithmetic of the handler is
      [TotalCommits-3], written with its 64-bit wrap-around ([int_sub]).
    - A map [map[string][]string] is a [gmap string (list string)]; a nil
      map is the empty map; indexing an absent key gives the nil slice.
    - An index or slice expression out of range is a run-time panic:
      [index] and [slice_to] return [None] there.
    - The libraries the handler calls and whose text is not part of the
      repository ([encoding/json], [html/template], [html]) are not
      re-implemented: the body of a request is given by what each decoder
      makes of it, template execution and [html.UnescapeString] are
      variables of the section. *)

From Stdlib Require Import ZArith Ascii String Floats.PrimFloat.
From stdpp Require Import gmap strings list fin_maps pretty.

Local Open Scope string_scope.
Local Open Scope list_scope.
Local Open Scope Z_scope.

(** ** Go primitives *)

(** [l[i]]: [None] is the panic "index out of range". *)
Definition index {A : Type} (l : list A) (i : nat) : option A := l !! i.

(** [s[0:n]] on a string: [None] is the panic "slice bounds out of range". *)
Definition slice_to (s : string) (n : nat) : option string :=
  if (n <=? String.length s)%nat then Some (String.substring 0 n s) else None.

(** A Go slice value: the elements below its length, and the elements of
    the backing array between its length and its capacity, which the
    slice expression [s[0:n]] brings back when [len s < n <= cap s]. *)
Record slice (A : Type) : Type := mkSlice { elems : list A; spare : list A }.
Arguments mkSlice {A} _ _.
Arguments elems {A} _.
Arguments spare {A} _.

Definition len {A : Type} (s : slice A) : nat := length (elems s).
Definition cap {A : Type} (s : slice A) : nat := (length (elems s) + length (spare s))%nat.

(** [s[0:n]] on a slice: panics only when [n] exceeds the capacity. *)
Definition reslice {A : Type} (s : slice A) (n : nat) : option (slice A) :=
  if (n <=? cap s)%nat
  then Some (mkSlice (take n (elems s ++ spare s)) (drop n (elems s ++ spare s)))
  else None.

Module strings.

(** [strings.Split(s, sep)] for a one-byte separator: the pieces of [s]
    between the occurrences of [sep], always at least one piece. *)
Fixpoint Split (s : string) (sep : ascii) : list string :=
  match s with
  | EmptyString => [EmptyString]
  | String c rest =>
      if Ascii.eqb c sep then EmptyString :: Split rest sep
      else match Split rest sep with
           | [] => [String c EmptyString]
           | piece :: pieces => String c piece :: pieces
           end
  end.

(** [strings.Join(l, sep)], used by the specification of the branch name
    only: the code never joins. *)
Fixpoint Join (l : list string) (sep : string) : string :=
  match l with
  | [] => ""
  | [x] => x
  | x :: rest => x +:+ sep +:+ Join rest sep
  end.

End strings.

(** Go's [int] is 64 bits wide on the platforms the program is built for. *)
Definition int_min : Z := - 2 ^ 63.
Definition int_max : Z := 2 ^ 63 - 1.
Definition wrap (z : Z) : Z := (z + 2 ^ 63) mod 2 ^ 64 - 2 ^ 63.
Definition int_sub (a b : Z) : Z := wrap (a - b).

(** ** The routing table *)

Record Mapping : Type := mkMapping {
  DefaultChannel : string;
  GroupMappings : gmap string (list string);
  ExplicitMappings : gmap string (list string)
}.

(** [contains]: the loop over the keys returns [true] at the first key
    equal to [entry]. *)
Definition contains (mapping : gmap string (list string)) (entry : string) : bool :=
  existsb (fun kv => String.eqb kv.1 entry) (map_to_list mapping).

(** [m[k]]: the nil slice for an absent key. *)
Definition map_index (m : gmap string (list string)) (k : string) : list string :=
  default [] (m !! k).

(** The first loop of [sendMessage]: the channels a message goes to. *)
Definition channelNames (projectName namespace : string) (channelMapping : Mapping)
  : list string :=
  let full_projectName := namespace +:+ "/" +:+ projectName in
  if contains (ExplicitMappings channelMapping) full_projectName then
    [] ++ map_index (ExplicitMappings channelMapping) full_projectName
  else if contains (GroupMappings channelMapping) namespace then
    [] ++ map_index (GroupMappings channelMapping) namespace
  else
    [] ++ [DefaultChannel channelMapping].

(** [getAllChannelNames]: the default channel, then the channels of the
    group mappings, then those of the explicit mappings. *)
Definition getAllChannelNames (channelMapping : Mapping) : list string :=
  [DefaultChannel channelMapping]
    ++ concat (map snd (map_to_list (GroupMappings channelMapping)))
    ++ concat (map snd (map_to_list (ExplicitMappings channelMapping))).

(** [RegisterHandlers]: the callbacks of the connection, by event code;
    the result lists the channels [irccon.Join] is called on, in order.
    On "001" (the welcome of the server) every name of
    [getAllChannelNames] is joined; the callback on "366" is empty, and
    no callback is registered for another code. *)
Definition RegisterHandlers (channelMapping : Mapping) (code : string) : list string :=
  if String.eqb code "001" then
    let channelNames := getAllChannelNames channelMapping in
    channelNames
  else if String.eqb code "366" then []
  else [].

(** ** What a request does

    A run of the handler is the list of its effects on the outside, in
    order, and the way it ends.  [R] is what a template execution is
    recorded as (the template and the value it is executed on). *)

Inductive Effect (R : Type) : Type :=
| Executed (r : R)                       (* tmpl.Execute(&buf, &value) *)
| Privmsg (channel message : string).    (* bot.Privmsg(channel, message) *)
Arguments Executed {R} _.
Arguments Privmsg {R} _ _.

(** The three ways a handler stops before its last statement. *)
Inductive Stop : Type :=
| Return     (* a return statement *)
| Fatal      (* log.Fatal: the message is logged and os.Exit(1) ends the process *)
| Panic.     (* a run-time panic: index or slice bounds out of range *)

Definition Run (R A : Type) : Type := list (Effect R) * (A + Stop).

Section Run.
Context {R : Type}.

#[export] Instance Run_ret : MRet (Run R) := fun A a => ([], inl a).

#[export] Instance Run_bind : MBind (Run R) := fun A B f m =>
  match m with
  | (t1, inl a) => let '(t2, r) := f a in (t1 ++ t2, r)
  | (t1, inr s) => (t1, inr s)
  end.

Definition stop {A : Type} (s : Stop) : Run R A := ([], inr s).

(** The value of an expression that may panic. *)
Definition must {A : Type} (o : option A) : Run R A :=
  match o with
  | Some a => mret a
  | None => stop Panic
  end.

(** [sendMessage]: one [Privmsg] for each channel the project maps to. *)
Definition sendMessage (message projectName namespace : string)
    (channelMapping : Mapping) : Run R unit :=
  (map (fun channelName => Privmsg channelName message)
       (channelNames projectName namespace channelMapping),
   inl tt).

End Run.

(** How a request ends for the server. *)
Inductive Status : Type :=
| Completed    (* the handler returned *)
| Exited       (* the process is gone *)
| Panicked.    (* the handler panicked; net/http recovers and drops the connection *)

Definition finish {R : Type} (a : Run R unit) : list (Effect R) * Status :=
  match a with
  | (t, inl _) => (t, Completed)
  | (t, inr Return) => (t, Completed)
  | (t, inr Fatal) => (t, Exited)
  | (t, inr Panic) => (t, Panicked)
  end.

(** The messages delivered and the templates executed in a trace. *)
Definition delivered {R : Type} (t : list (Effect R)) : list (string * string) :=
  omap (fun e => match e with Privmsg c m => Some (c, m) | Executed _ => None end) t.

Definition rendered {R : Type} (t : list (Effect R)) : list R :=
  omap (fun e => match e with Executed r => Some r | Privmsg _ _ => None end) t.

(** ** The event records of the full variant

    One module per Go struct, so that a field keeps its Go name:
    [Project.Name (PushEvent.Project e)] is [e.Project.Name]. *)

Module Project.
Record t : Type := mk { Name : string; Namespace : string; WebURL : string }.
End Project.

Module User.
Record t : Type := mk { Name : string }.
End User.

Module Issue.
Record t : Type := mk {
  Iid : Z; Action : string; Title : string; Description : string; URL : string }.
Definition set_Action (i : t) (a : string) : t :=
  mk (Iid i) a (Title i) (Description i) (URL i).
End Issue.

Module Author.
Record t : Type := mk { Name : string }.
End Author.

Module Commit.
Record t : Type := mk {
  Id : string; Message : string;
  Added : list string; Modified : list string; Removed : list string;
  Author : Author.t }.
End Commit.

Module PushEvent.
Record t : Type := mk {
  UserName : string; BeforeCommit : string; AfterCommit : string;
  Project : Project.t; Commits : slice Commit.t;
  TotalCommits : Z; Branch : string }.
Definition set_Branch (e : t) (b : string) : t :=
  mk (UserName e) (BeforeCommit e) (AfterCommit e) (Project e) (Commits e)
     (TotalCommits e) b.
Definition set_BeforeCommit (e : t) (h : string) : t :=
  mk (UserName e) h (AfterCommit e) (Project e) (Commits e)
     (TotalCommits e) (Branch e).
Definition set_AfterCommit (e : t) (h : string) : t :=
  mk (UserName e) (BeforeCommit e) h (Project e) (Commits e)
     (TotalCommits e) (Branch e).
Definition set_Commits (e : t) (cs : slice Commit.t) : t :=
  mk (UserName e) (BeforeCommit e) (AfterCommit e) (Project e) cs
     (TotalCommits e) (Branch e).
End PushEvent.

Module IssueEvent.
Record t : Type := mk { User : User.t; Project : Project.t; Issue : Issue.t }.
Definition set_Issue (e : t) (i : Issue.t) : t := mk (User e) (Project e) i.
End IssueEvent.

Module Merge.
Record t : Type := mk { Iid : Z; Action : string; Title : string; URL : string }.
Definition set_Action (m : t) (a : string) : t := mk (Iid m) a (Title m) (URL m).
End Merge.

Module MergeEvent.
Record t : Type := mk { User : User.t; Project : Project.t; Merge : Merge.t }.
Definition set_Merge (e : t) (m : Merge.t) : t := mk (User e) (Project e) m.
End MergeEvent.

Module Pipeline.
Record t : Type := mk { Id : Z; Commit : string; Status : string; Duration : float }.
Definition set_Commit (p : t) (c : string) : t := mk (Id p) c (Status p) (Duration p).
Definition set_Status (p : t) (s : string) : t := mk (Id p) (Commit p) s (Duration p).
End Pipeline.

Module PipelineEvent.
Record t : Type := mk { Pipeline : Pipeline.t; Project : Project.t }.
Definition set_Pipeline (e : t) (p : Pipeline.t) : t := mk p (Project e).
End PipelineEvent.

Module Repository.
Record t : Type := mk { Name : string; Homepage : string; URL : string }.
End Repository.

Module JobEvent.
Record t : Type := mk {
  Id : Z; Name : string; Status : string; Duration : float;
  Commit : string; Repository : Repository.t }.
Definition set_Commit (e : t) (c : string) : t :=
  mk (Id e) (Name e) (Status e) (Duration e) c (Repository e).
Definition set_Status (e : t) (s : string) : t :=
  mk (Id e) (Name e) s (Duration e) (Commit e) (Repository e).
End JobEvent.

Module CommitContext.
Record t : Type := mk {
  ShortID : string; Message : string; Author : Author.t;
  AddedFiles : Z; ModifiedFiles : Z; RemovedFiles : Z }.
End CommitContext.

(** The body of a request, seen through [decoder.Decode] at each of the
    five struct types: [None] is a decoding error. *)
Module Body.
Record t : Type := mk {
  PipelineEvent : option PipelineEvent.t;
  JobEvent : option JobEvent.t;
  MergeEvent : option MergeEvent.t;
  IssueEvent : option IssueEvent.t;
  PushEvent : option PushEvent.t }.
End Body.

(** A request: the values of its [X-Gitlab-Event] header and its body. *)
Module Request.
Record t : Type := mk { Header : list string; Body : Body.t }.
End Request.

(** The templates of the full variant and the values they are executed on. *)
Inductive Template : Type :=
| pushCompareTemplate | pushCommitLogTemplate
| branchCreateTemplate | branchDeleteTemplate
| commitTemplate | issueTemplate | mergeTemplate
| pipelineCreateTemplate | pipelineCompleteTemplate
| jobCompleteTemplate.

Inductive Data : Type :=
| OfPush (e : PushEvent.t)
| OfCommit (c : CommitContext.t)
| OfIssue (e : IssueEvent.t)
| OfMerge (e : MergeEvent.t)
| OfPipeline (e : PipelineEvent.t)
| OfJob (e : JobEvent.t).

(** The colour escape of the chat network, byte 3. *)
Definition x03 : string := String "003"%char "".

Definition JobStatus : gmap string string :=
  list_to_map
    [ ("pending", "is " +:+ x03 +:+ "15pending" +:+ x03);
      ("created", "was " +:+ x03 +:+ "15created" +:+ x03);
      ("running", "is " +:+ x03 +:+ "07running" +:+ x03);
      ("failed", "has " +:+ x03 +:+ "04failed" +:+ x03);
      ("success", "has " +:+ x03 +:+ "03succeded" +:+ x03) ].

Definition HookActions : gmap string string :=
  list_to_map
    [ ("open", "opened"); ("update", "updated"); ("close", "closed");
      ("reopen", "reopened"); ("merge", "merged") ].

(** [m[k]] on a [map[string]string]: the empty string for an absent key. *)
Definition lookup_string (m : gmap string string) (k : string) : string :=
  default "" (m !! k).

Definition NullCommit : string := "0000000000000000000000000000000000000000".

(** [fmt.Sprintf("and %d more commits.", n)] *)
Definition more_commits (n : Z) : string := "and " +:+ pretty n +:+ " more commits.".

(** ** The handler of the full variant *)

Section Notify.

(** [tmpl.Execute(&buf, &value)] on a fresh buffer: the text written
    and whether an error came back. *)
Variable Execute : Template -> Data -> string * bool.

(** [html.UnescapeString] *)
Variable UnescapeString : string -> string.

Local Abbreviation Go := (Run (Template * Data)).

Definition execute (t : Template) (d : Data) : Go (string * bool) :=
  ([Executed (t, d)], inl (Execute t d)).

(** The body of [for _, commit := range pushEvent.Commits]. *)
Fixpoint range_commits (pushEvent : PushEvent.t) (channelMapping : Mapping)
    (commits : list Commit.t) : Go unit :=
  match commits with
  | [] => mret tt
  | commit :: rest =>
      shortID ← must (slice_to (Commit.Id commit) 7);
      let context :=
        CommitContext.mk shortID (UnescapeString (Commit.Message commit))
          (Commit.Author commit)
          (Z.of_nat (length (Commit.Added commit)))
          (Z.of_nat (length (Commit.Modified commit)))
          (Z.of_nat (length (Commit.Removed commit))) in
      out ← execute commitTemplate (OfCommit context);
      if (snd out : bool) then stop Return
      else
        sendMessage (fst out) (Project.Name (PushEvent.Project pushEvent))
          (Project.Namespace (PushEvent.Project pushEvent)) channelMapping;;
        range_commits pushEvent channelMapping rest
  end.

Definition pipelineHook (channelMapping : Mapping) (body : Body.t) : Go unit :=
  match Body.PipelineEvent body with
  | None => stop Fatal
  | Some pipelineEvent =>
      if String.eqb (Pipeline.Status (PipelineEvent.Pipeline pipelineEvent)) "pending"
      then stop Return
      else
        commit ← must (slice_to (Pipeline.Commit (PipelineEvent.Pipeline pipelineEvent)) 7);
        let pipelineEvent :=
          PipelineEvent.set_Pipeline pipelineEvent
            (Pipeline.set_Commit (PipelineEvent.Pipeline pipelineEvent) commit) in
        let status := Pipeline.Status (PipelineEvent.Pipeline pipelineEvent) in
        if String.eqb status "running" then
          let pipelineEvent :=
            PipelineEvent.set_Pipeline pipelineEvent
              (Pipeline.set_Status (PipelineEvent.Pipeline pipelineEvent)
                 (lookup_string JobStatus status)) in
          out ← execute pipelineCreateTemplate (OfPipeline pipelineEvent);
          sendMessage (fst out) (Project.Name (PipelineEvent.Project pipelineEvent))
            (Project.Namespace (PipelineEvent.Project pipelineEvent)) channelMapping
        else if String.eqb status "success" || String.eqb status "failed" then
          let pipelineEvent :=
            PipelineEvent.set_Pipeline pipelineEvent
              (Pipeline.set_Status (PipelineEvent.Pipeline pipelineEvent)
                 (lookup_string JobStatus status)) in
          out ← execute pipelineCompleteTemplate (OfPipeline pipelineEvent);
          sendMessage (fst out) (Project.Name (PipelineEvent.Project pipelineEvent))
            (Project.Namespace (PipelineEvent.Project pipelineEvent)) channelMapping
        else mret tt
  end.

Definition jobHook (channelMapping : Mapping) (body : Body.t) : Go unit :=
  match Body.JobEvent body with
  | None => stop Fatal
  | Some jobEvent =>
      if negb (String.eqb (JobEvent.Status jobEvent) "success")
         && negb (String.eqb (JobEvent.Status jobEvent) "failed")
      then stop Return
      else
        commit ← must (slice_to (JobEvent.Commit jobEvent) 7);
        let jobEvent := JobEvent.set_Commit jobEvent commit in
        path ← must (index (strings.Split (Repository.URL (JobEvent.Repository jobEvent)) ":") 1);
        namespace ← must (index (strings.Split path "/") 0);
        let jobEvent :=
          JobEvent.set_Status jobEvent (lookup_string JobStatus (JobEvent.Status jobEvent)) in
        out ← execute jobCompleteTemplate (OfJob jobEvent);
        sendMessage (fst out) (Repository.Name (JobEvent.Repository jobEvent))
          namespace channelMapping
  end.

Definition mergeRequestHook (channelMapping : Mapping) (body : Body.t) : Go unit :=
  match Body.MergeEvent body with
  | None => stop Fatal
  | Some mergeEvent =>
      let mergeEvent :=
        MergeEvent.set_Merge mergeEvent
          (Merge.set_Action (MergeEvent.Merge mergeEvent)
             (lookup_string HookActions (Merge.Action (MergeEvent.Merge mergeEvent)))) in
      out ← execute mergeTemplate (OfMerge mergeEvent);
      sendMessage (fst out) (Project.Name (MergeEvent.Project mergeEvent))
        (Project.Namespace (MergeEvent.Project mergeEvent)) channelMapping
  end.

Definition issueHook (channelMapping : Mapping) (body : Body.t) : Go unit :=
  match Body.IssueEvent body with
  | None => stop Fatal
  | Some issueEvent =>
      let issueEvent :=
        IssueEvent.set_Issue issueEvent
          (Issue.set_Action (IssueEvent.Issue issueEvent)
             (lookup_string HookActions (Issue.Action (IssueEvent.Issue issueEvent)))) in
      out ← execute issueTemplate (OfIssue issueEvent);
      sendMessage (fst out) (Project.Name (IssueEvent.Project issueEvent))
        (Project.Namespace (IssueEvent.Project issueEvent)) channelMapping
  end.

Definition pushHook (channelMapping : Mapping) (body : Body.t) : Go unit :=
  match Body.PushEvent body with
  | None => stop Return          (* log.Println(err); return *)
  | Some pushEvent =>
      branch ← must (index (strings.Split (PushEvent.Branch pushEvent) "/") 2);
      let pushEvent := PushEvent.set_Branch pushEvent branch in
      (* pushEvent.Project is never assigned to: its two fields are read once *)
      let name := Project.Name (PushEvent.Project pushEvent) in
      let namespace := Project.Namespace (PushEvent.Project pushEvent) in
      if String.eqb (PushEvent.AfterCommit pushEvent) NullCommit then
        (* Branch was deleted *)
        out ← execute branchDeleteTemplate (OfPush pushEvent);
        sendMessage (fst out) name namespace channelMapping
      else
        (if String.eqb (PushEvent.BeforeCommit pushEvent) NullCommit then
           (* Branch was created *)
           out ← execute branchCreateTemplate (OfPush pushEvent);
           sendMessage (fst out) name namespace channelMapping
         else mret tt);;
        if 0 <? PushEvent.TotalCommits pushEvent then
          '(pushEvent, text) ←
            (if String.eqb (PushEvent.BeforeCommit pushEvent) NullCommit then
               out ← execute pushCommitLogTemplate (OfPush pushEvent);
               mret (pushEvent, fst out)
             else
               before ← must (slice_to (PushEvent.BeforeCommit pushEvent) 7);
               let pushEvent := PushEvent.set_BeforeCommit pushEvent before in
               after ← must (slice_to (PushEvent.AfterCommit pushEvent) 7);
               let pushEvent := PushEvent.set_AfterCommit pushEvent after in
               out ← execute pushCompareTemplate (OfPush pushEvent);
               mret (pushEvent, fst out));
          sendMessage text name namespace channelMapping;;
          (* Limit number of commit meessages to 3 *)
          pushEvent ←
            (if 3 <? PushEvent.TotalCommits pushEvent then
               commits ← must (reslice (PushEvent.Commits pushEvent) 3);
               mret (PushEvent.set_Commits pushEvent commits)
             else mret pushEvent);
          range_commits pushEvent channelMapping (elems (PushEvent.Commits pushEvent));;
          if 3 <? PushEvent.TotalCommits pushEvent then
            sendMessage (more_commits (int_sub (PushEvent.TotalCommits pushEvent) 3))
              name namespace channelMapping
          else mret tt
        else mret tt
  end.

(** The function that [CreateFunctionNotifyFunction] returns: the switch
    on the event type.  An unknown event type is logged and nothing
    else happens. *)
Definition CreateFunctionNotifyFunction (channelMapping : Mapping) (req : Request.t)
  : Go unit :=
  eventType ← must (index (Request.Header req) 0);
  if String.eqb eventType "Pipeline Hook" then
    pipelineHook channelMapping (Request.Body req)
  else if String.eqb eventType "Job Hook" then
    jobHook channelMapping (Request.Body req)
  else if String.eqb eventType "Merge Request Hook"
          || String.eqb eventType "Merge Request Event" then
    mergeRequestHook channelMapping (Request.Body req)
  else if String.eqb eventType "Issue Hook" || String.eqb eventType "Issue Event" then
    issueHook channelMapping (Request.Body req)
  else if String.eqb eventType "Push Hook" || String.eqb eventType "Push Event" then
    pushHook channelMapping (Request.Body req)
  else mret tt.

(** One request served: the trace and how it ended. *)
Definition serve (channelMapping : Mapping) (req : Request.t)
  : list (Effect (Template * Data)) * Status :=
  finish (CreateFunctionNotifyFunction channelMapping req).

End Notify.

(** ** The small variant ([src/main.go]) *)

Module V1.

Module Project.
Record t : Type := mk { Name : string; Namespace : string }.
End Project.

Module User.
Record t : Type := mk { Name : string }.
End User.

Module Issue.
Record t : Type := mk { Iid : Z; Title : string; Description : string }.
End Issue.

Module Commit.
Record t : Type := mk {
  Id : string; Message : string;
  Added : list string; Modified : list string; Removed : list string }.
End Commit.

Module PushEvent.
Record t : Type := mk {
  UserName : string; Project : Project.t; Commits : list Commit.t;
  TotalCommits : Z; Branch : string }.
Definition set_Branch (e : t) (b : string) : t :=
  mk (UserName e) (Project e) (Commits e) (TotalCommits e) b.
End PushEvent.

Module IssueEvent.
Record t : Type := mk { User : User.t; Project : Project.t; Issue : Issue.t }.
End IssueEvent.

Module CommitContext.
Record t : Type := mk {
  ShortID : string; Message : string;
  AddedFiles : Z; ModifiedFiles : Z; RemovedFiles : Z }.
End CommitContext.

Module Body.
Record t : Type := mk {
  IssueEvent : option IssueEvent.t;
  PushEvent : option PushEvent.t }.
End Body.

Module Request.
Record t : Type := mk { Header : list string; Body : Body.t }.
End Request.

Inductive Template : Type := pushTemplate | commitTemplate | issueTemplate.

Inductive Data : Type :=
| OfPush (e : PushEvent.t)
| OfCommit (c : CommitContext.t)
| OfIssue (e : IssueEvent.t).

Section Notify.

Variable Execute : Template -> Data -> string * bool.

Local Abbreviation Go := (Run (Template * Data)).

Definition execute (t : Template) (d : Data) : Go (string * bool) :=
  ([Executed (t, d)], inl (Execute t d)).

Fixpoint range_commits (pushEvent : PushEvent.t) (channelMapping : Mapping)
    (commits : list Commit.t) : Go unit :=
  match commits with
  | [] => mret tt
  | commit :: rest =>
      shortID ← must (slice_to (Commit.Id commit) 8);
      let context :=
        CommitContext.mk shortID (Commit.Message commit)
          (Z.of_nat (length (Commit.Added commit)))
          (Z.of_nat (length (Commit.Modified commit)))
          (Z.of_nat (length (Commit.Removed commit))) in
      out ← execute commitTemplate (OfCommit context);
      if (snd out : bool) then stop Return
      else
        sendMessage (fst out) (Project.Name (PushEvent.Project pushEvent))
          (Project.Namespace (PushEvent.Project pushEvent)) channelMapping;;
        range_commits pushEvent channelMapping rest
  end.

Definition issueHook (channelMapping : Mapping) (body : Body.t) : Go unit :=
  match Body.IssueEvent body with
  | None => stop Fatal
  | Some issueEvent =>
      out ← execute issueTemplate (OfIssue issueEvent);
      sendMessage (fst out) (Project.Name (IssueEvent.Project issueEvent))
        (Project.Namespace (IssueEvent.Project issueEvent)) channelMapping
  end.

Definition pushHook (channelMapping : Mapping) (body : Body.t) : Go unit :=
  match Body.PushEvent body with
  | None => stop Return
  | Some pushEvent =>
      branch ← must (index (strings.Split (PushEvent.Branch pushEvent) "/") 2);
      let pushEvent := PushEvent.set_Branch pushEvent branch in
      out ← execute pushTemplate (OfPush pushEvent);
      sendMessage (fst out) (Project.Name (PushEvent.Project pushEvent))
        (Project.Namespace (PushEvent.Project pushEvent)) channelMapping;;
      range_commits pushEvent channelMapping (PushEvent.Commits pushEvent)
  end.

Definition CreateFunctionNotifyFunction (channelMapping : Mapping) (req : Request.t)
  : Go unit :=
  eventType ← must (index (Request.Header req) 0);
  if String.eqb eventType "Issue Hook" then
    issueHook channelMapping (Request.Body req)
  else if String.eqb eventType "Push Hook" then
    pushHook channelMapping (Request.Body req)
  else mret tt.

Definition serve (channelMapping : Mapping) (req : Request.t)
  : list (Effect (Template * Data)) * Status :=
  finish (CreateFunctionNotifyFunction channelMapping req).

End Notify.

End V1.

(** ** Vocabulary of the statements *)

(** The routing table keeps the invariant of the data model: no key is
    mapped to an empty list of channels. *)
Definition no_empty_list (m : gmap string (list string)) : bool :=
  forallb (fun kv => negb (bool_decide (kv.2 = []))) (map_to_list m).

Definition destinations_nonempty (channelMapping : Mapping) : bool :=
  no_empty_list (ExplicitMappings channelMapping)
  && no_empty_list (GroupMappings channelMapping).

(** The resolution as the specification words it: explicit, else group,
    else default. *)
Definition resolve (namespace name : string) (table : Mapping) : list string :=
  match ExplicitMappings table !! (namespace +:+ "/" +:+ name) with
  | Some destinations => destinations
  | None =>
      match GroupMappings table !! namespace with
      | Some destinations => destinations
      | None => [DefaultChannel table]
      end
  end.

(** The branch name as the specification words it: the components of the
    ref from index 2 onward, joined again. *)
Definition branch_from_index_2 (ref : string) : string :=
  strings.Join (drop 2 (strings.Split ref "/")) "/".

Section Lines.

Variable Execute : Template -> Data -> string * bool.
Variable UnescapeString : string -> string.
Variable channelMapping : Mapping.

(** What [sendMessage] leaves in the trace for a project. *)
Definition deliveries (message : string) (p : Project.t)
  : list (Effect (Template * Data)) :=
  map (fun channelName => Privmsg channelName message)
      (channelNames (Project.Name p) (Project.Namespace p) channelMapping).

(** One line: a template executed, its text sent to the project's channels. *)
Definition line (t : Template) (d : Data) (p : Project.t)
  : list (Effect (Template * Data)) :=
  Executed (t, d) :: deliveries (fst (Execute t d)) p.

(** The value the commit template is executed on, for a commit whose id
    has at least 7 characters. *)
Definition context_of (commit : Commit.t) : CommitContext.t :=
  CommitContext.mk (String.substring 0 7 (Commit.Id commit))
    (UnescapeString (Commit.Message commit)) (Commit.Author commit)
    (Z.of_nat (length (Commit.Added commit)))
    (Z.of_nat (length (Commit.Modified commit)))
    (Z.of_nat (length (Commit.Removed commit))).

Definition commit_line (p : Project.t) (commit : Commit.t)
  : list (Effect (Template * Data)) :=
  line commitTemplate (OfCommit (context_of commit)) p.

(** A commit that the loop renders without panic nor error. *)
Definition renders (commit : Commit.t) : Prop :=
  (7 <= String.length (Commit.Id commit))%nat
  /\ snd (Execute commitTemplate (OfCommit (context_of commit))) = false.

End Lines.

(** A trace put in front of a run. *)
Definition prepend {R A : Type} (t : list (Effect R)) (m : Run R A) : Run R A :=
  (t ++ fst m, snd m).

Section PushLines.

Variable Execute : Template -> Data -> string * bool.
Variable channelMapping : Mapping.

(** The commits the loop goes through: the first three when the count
    of the event exceeds 3 (and the list holds three), all of them
    otherwise. *)
Definition shown (e : PushEvent.t) : list Commit.t :=
  if 3 <? PushEvent.TotalCommits e
  then take 3 (elems (PushEvent.Commits e))
  else elems (PushEvent.Commits e).

(** The event once both hashes are cut to 7 characters. *)
Definition shortened (e : PushEvent.t) : PushEvent.t :=
  PushEvent.set_AfterCommit
    (PushEvent.set_BeforeCommit e (String.substring 0 7 (PushEvent.BeforeCommit e)))
    (String.substring 0 7 (PushEvent.AfterCommit e)).

Definition branch_create_line (e : PushEvent.t) : list (Effect (Template * Data)) :=
  line Execute channelMapping branchCreateTemplate (OfPush e) (PushEvent.Project e).

Definition branch_delete_line (e : PushEvent.t) : list (Effect (Template * Data)) :=
  line Execute channelMapping branchDeleteTemplate (OfPush e) (PushEvent.Project e).

(** The push-summary line: the commit log of the branch when there is
    no commit to compare with, the comparison of the two short hashes
    otherwise. *)
Definition summary_line (e : PushEvent.t) : list (Effect (Template * Data)) :=
  if String.eqb (PushEvent.BeforeCommit e) NullCommit
  then line Execute channelMapping pushCommitLogTemplate (OfPush e) (PushEvent.Project e)
  else line Execute channelMapping pushCompareTemplate (OfPush (shortened e))
         (PushEvent.Project e).

(** The line "and N more commits.": it is not rendered from a template. *)
Definition more_line (e : PushEvent.t) (n : Z) : list (Effect (Template * Data)) :=
  deliveries channelMapping (more_commits n) (PushEvent.Project e).

End PushLines.

(** The event type of a push request. *)
Definition push_label (eventType : string) : bool :=
  String.eqb eventType "Push Hook" || String.eqb eventType "Push Event".

(** The templates executed in a trace, in order. *)
Definition templates (t : list (Effect (Template * Data))) : list Template :=
  map fst (rendered t).

(** The status keywords that the pipeline case looks at. *)
Definition pipeline_keywords : list string := ["pending"; "running"; "success"; "failed"].

(** The action keywords of [HookActions]. *)
Definition action_keywords : list string := ["open"; "update"; "close"; "reopen"; "merge"].

(** The channels a trace delivers to, in order. *)
Definition sent_to {R : Type} (t : list (Effect R)) : list string :=
  map fst (delivered t).

(** Every delivery of a run goes to a channel that satisfies [P]. *)
Definition routed {R A : Type} (P : string -> Prop) (m : Run R A) : Prop :=
  forall channel, In channel (sent_to (fst m)) -> P channel.

(** The same, together with what the run returns when it goes to its end. *)
Definition ensures {R A : Type} (P : string -> Prop) (Q : A -> Prop) (m : Run R A)
  : Prop :=
  routed P m /\ (forall a, snd m = inl a -> Q a).

(** A run that does not end the process. *)
Definition never_exits {R A : Type} (m : Run R A) : Prop := snd m <> inr Fatal.

(** The number of bytes of [s] equal to [sep]. *)
Fixpoint occurrences (sep : ascii) (s : string) : nat :=
  match s with
  | EmptyString => 0
  | String c rest => (if Ascii.eqb c sep then 1 else 0) + occurrences sep rest
  end.

(** The event types the switch has a case for. *)
Definition known_labels : list string :=
  [ "Pipeline Hook"; "Job Hook"; "Merge Request Hook"; "Merge Request Event";
    "Issue Hook"; "Issue Event"; "Push Hook"; "Push Event" ].

(** A pipeline event and a job event as they are rendered: the hash cut
    to 7 characters, the status replaced by its phrase of [JobStatus]. *)
Definition normal_pipeline (e : PipelineEvent.t) : PipelineEvent.t :=
  PipelineEvent.mk
    (Pipeline.mk (Pipeline.Id (PipelineEvent.Pipeline e))
       (String.substring 0 7 (Pipeline.Commit (PipelineEvent.Pipeline e)))
       (lookup_string JobStatus (Pipeline.Status (PipelineEvent.Pipeline e)))
       (Pipeline.Duration (PipelineEvent.Pipeline e)))
    (PipelineEvent.Project e).

Definition normal_job (e : JobEvent.t) : JobEvent.t :=
  JobEvent.mk (JobEvent.Id e) (JobEvent.Name e)
    (lookup_string JobStatus (JobEvent.Status e)) (JobEvent.Duration e)
    (String.substring 0 7 (JobEvent.Commit e)) (JobEvent.Repository e).

(** An issue event and a merge event with the action replaced. *)
Definition with_issue_action (e : IssueEvent.t) (verb : string) : IssueEvent.t :=
  IssueEvent.set_Issue e (Issue.set_Action (IssueEvent.Issue e) verb).

Definition with_merge_action (e : MergeEvent.t) (verb : string) : MergeEvent.t :=
  MergeEvent.set_Merge e (Merge.set_Action (MergeEvent.Merge e) verb).

Section LinesV1.

Variable Execute : V1.Template -> V1.Data -> string * bool.
Variable channelMapping : Mapping.





End LinesV1.

(** ** Sample inputs *)

Definition template_name (t : Template) : string :=
  match t with
  | pushCompareTemplate => "push notification"
  | pushCommitLogTemplate => "push to new branch notification"
  | branchCreateTemplate => "branch creat notification"
  | branchDeleteTemplate => "branch delete notification"
  | commitTemplate => "commit notification"
  | issueTemplate => "issue notification"
  | mergeTemplate => "merge notification"
  | pipelineCreateTemplate => "pipeline create notification"
  | pipelineCompleteTemplate => "pipeline complete notification"
  | jobCompleteTemplate => "job complete notification"
  end.

(** A stand-in for template execution: the name of the template, no error. *)
Definition sample_Execute (t : Template) (d : Data) : string * bool :=
  (template_name t, false).

Definition sample_project : Project.t := Project.mk "bridge" "infra" "https://git.example/infra/bridge".

Definition sample_table : Mapping :=
  mkMapping "#default" {[ "infra" := ["#infra"; "#ops"] ]} {[ "infra/bridge" := ["#bridge"] ]}.

(** A table whose explicit entry for the sample project lists no channel. *)
Definition silent_table : Mapping :=
  mkMapping "#default" ∅ {[ "infra/bridge" := [] ]}.

Definition default_table : Mapping := mkMapping "#default" ∅ ∅.

Definition hash_a : string := "1f3870be274f6c49b3e31a0c6728957f1f3870be".
Definition hash_b : string := "9dd4e461268c8034f5c8564e155c67a69dd4e461".

Definition sample_commit (id : string) : Commit.t :=
  Commit.mk id "fix &amp; tidy" ["a.go"] ["b.go"; "c.go"] [] (Author.mk "ada").

Definition five_commits : list Commit.t :=
  map sample_commit
    [ "a94a8fe5ccb19ba61c4c0873d391e987982fbbd3";
      "b6589fc6ab0dc82cf12099d1c2d40ab994e8410c";
      "c1dfd96eea8cc2b62785275bca38ac261256e278";
      "d2a042f2a1a5b8e6f2c6a0f1d6d8c3e7a4b1c0d9";
      "e9d71f5ee7c92d6dc9e92ffdad17b8bd49418f98" ].

Definition sample_push (before after : string) (total : Z) (commits : list Commit.t)
  : PushEvent.t :=
  PushEvent.mk "ada" before after sample_project (mkSlice commits [])
    total "refs/heads/feature/x".

(** A body that decodes as a push event and as nothing else, and so on. *)
Definition push_body (e : PushEvent.t) : Body.t := Body.mk None None None None (Some e).
Definition issue_body (e : IssueEvent.t) : Body.t := Body.mk None None None (Some e) None.
Definition merge_body (e : MergeEvent.t) : Body.t := Body.mk None None (Some e) None None.
Definition job_body (e : JobEvent.t) : Body.t := Body.mk None (Some e) None None None.
Definition pipeline_body (e : PipelineEvent.t) : Body.t := Body.mk (Some e) None None None None.

Definition push_request (e : PushEvent.t) : Request.t :=
  Request.mk ["Push Hook"] (push_body e).

(** Five commits pushed to an existing branch, five to a new branch, two
    to a new branch, and a push that carries no commit. *)
Definition push_five : PushEvent.t := sample_push hash_a hash_b 5 five_commits.
Definition push_new_branch_five : PushEvent.t := sample_push NullCommit hash_b 5 five_commits.
Definition push_empty : PushEvent.t := sample_push hash_a hash_b 0 [].

(** A stand-in for [html.UnescapeString]: the text as it is. *)
Definition sample_Unescape (s : string) : string := s.

(** The branch [feature/x] deleted. *)
Definition push_deleted : PushEvent.t := sample_push hash_a NullCommit 0 [].

(** A push whose only commit has an id of five characters. *)
Definition push_short_id : PushEvent.t :=
  sample_push hash_a hash_b 1 [sample_commit "1f387"].

(** The same for the small variant. *)
Definition sample_Execute_v1 (t : V1.Template) (d : V1.Data) : string * bool :=
  (match t with
   | V1.pushTemplate => "push notification"
   | V1.commitTemplate => "commit notification"
   | V1.issueTemplate => "issue notification"
   end, false).

Definition sample_push_v1 (commits : list V1.Commit.t) : V1.PushEvent.t :=
  V1.PushEvent.mk "ada" (V1.Project.mk "bridge" "infra") commits
    (Z.of_nat (length commits)) "refs/heads/feature/x".

Definition push_request_v1 (e : V1.PushEvent.t) : V1.Request.t :=
  V1.Request.mk ["Push Hook"] (V1.Body.mk None (Some e)).

(** A branch deleted, in an event that still lists commits; a count of 2
    over a list of five commits; a count of 5 over a list of one. *)
Definition push_deleted_with_commits : PushEvent.t :=
  sample_push hash_a NullCommit 5 five_commits.

(** A template execution that fails on the commit whose short id is
    "b6589fc", the second of [five_commits]. *)
Definition failing_Execute (t : Template) (d : Data) : string * bool :=
  (template_name t,
   match d with
   | OfCommit c => String.eqb (CommitContext.ShortID c) "b6589fc"
   | _ => false
   end).

Definition sample_commit_v1 (id : string) : V1.Commit.t :=
  V1.Commit.mk id "fix &amp; tidy" [] [] [].

(** Four commits of the small variant. *)
Definition four_commits_v1 : list V1.Commit.t :=
  map sample_commit_v1
    [ "a94a8fe5ccb19ba61c4c0873d391e987982fbbd3";
      "b6589fc6ab0dc82cf12099d1c2d40ab994e8410c";
      "c1dfd96eea8cc2b62785275bca38ac261256e278";
      "d2a042f2a1a5b8e6f2c6a0f1d6d8c3e7a4b1c0d9" ].


(** A body that is not JSON at all: every decoder fails on it. *)
Definition malformed_body : Body.t := Body.mk None None None None None.
Definition malformed_body_v1 : V1.Body.t := V1.Body.mk None None.

Definition sample_issue (action : string) : IssueEvent.t :=
  IssueEvent.mk (User.mk "ada") sample_project
    (Issue.mk 12 action "Crash on start" "" "https://git.example/infra/bridge/issues/12").

Definition sample_merge (action : string) : MergeEvent.t :=
  MergeEvent.mk (User.mk "ada") sample_project
    (Merge.mk 7 action "Add retry" "https://git.example/infra/bridge/merge_requests/7").

Definition sample_pipeline (status commit : string) : PipelineEvent.t :=
  PipelineEvent.mk (Pipeline.mk 31 commit status 0%float) sample_project.

Definition sample_job (status : string) : JobEvent.t :=
  JobEvent.mk 44 "test" status 0%float hash_a
    (Repository.mk "bridge" "https://git.example/infra/bridge"
       "git@git.example:infra/bridge.git").

(** ** Channel resolution *)

Lemma contains_lookup (mapping : gmap string (list string)) (entry : string) :
  contains mapping entry = true <-> is_Some (mapping !! entry).
Proof.
  unfold contains. rewrite existsb_exists. split.
  - intros [[k l] [Hin Heq]]. apply String.eqb_eq in Heq. simpl in Heq. subst k.
    apply list_elem_of_In, elem_of_map_to_list in Hin. eauto.
  - intros [l Hl]. exists (entry, l). split.
    + apply list_elem_of_In, elem_of_map_to_list. exact Hl.
    + apply String.eqb_refl.
Qed.

Lemma contains_absent (mapping : gmap string (list string)) (entry : string) :
  contains mapping entry = false <-> mapping !! entry = None.
Proof.
  rewrite <- not_true_iff_false, contains_lookup, eq_None_not_Some. tauto.
Qed.

Lemma no_empty_list_lookup (m : gmap string (list string)) (k : string) (l : list string) :
  no_empty_list m = true -> m !! k = Some l -> l <> [].
Proof.
  unfold no_empty_list. rewrite forallb_forall. intros Hall Hk.
  apply elem_of_map_to_list, list_elem_of_In in Hk.
  specialize (Hall _ Hk). simpl in Hall.
  apply negb_true_iff, bool_decide_eq_false in Hall. exact Hall.
Qed.

Lemma channelNames_resolve (projectName namespace : string) (channelMapping : Mapping) :
  channelNames projectName namespace channelMapping
  = resolve namespace projectName channelMapping.
Proof.
  unfold channelNames, resolve, map_index. cbv zeta.
  destruct (contains (ExplicitMappings channelMapping) _) eqn:He.
  - apply contains_lookup in He. destruct He as [l Hl]. rewrite Hl. reflexivity.
  - apply contains_absent in He. rewrite He.
    destruct (contains (GroupMappings channelMapping) _) eqn:Hg.
    + apply contains_lookup in Hg. destruct Hg as [l Hl]. rewrite Hl. reflexivity.
    + apply contains_absent in Hg. rewrite Hg. reflexivity.
Qed.

(** C1 (as amended): for every project identity and every routing table,
    the channels of a message are the explicit map's list when the key
    "namespace/name" is in the explicit map, otherwise the group map's
    list when the namespace is a key of the group map, otherwise the
    default channel alone; resolution is a total function, and its result
    is non-empty whenever no key of the table is mapped to an empty list. *)
Theorem channelNames_precedence (projectName namespace : string) (channelMapping : Mapping) :
  channelNames projectName namespace channelMapping
  = match ExplicitMappings channelMapping !! (namespace +:+ "/" +:+ projectName) with
    | Some destinations => destinations
    | None =>
        match GroupMappings channelMapping !! namespace with
        | Some destinations => destinations
        | None => [DefaultChannel channelMapping]
        end
    end
  /\ (destinations_nonempty channelMapping = true ->
      channelNames projectName namespace channelMapping <> []).
Proof.
  split; [apply channelNames_resolve|].
  rewrite channelNames_resolve. unfold destinations_nonempty, resolve.
  rewrite andb_true_iff. intros [He Hg].
  destruct (ExplicitMappings channelMapping !! _) as [l|] eqn:Hl.
  - exact (no_empty_list_lookup _ _ _ He Hl).
  - destruct (GroupMappings channelMapping !! namespace) as [l|] eqn:Hl'.
    + exact (no_empty_list_lookup _ _ _ Hg Hl').
    + discriminate.
Qed.

Lemma channelNames_precedence_witness :
  destinations_nonempty sample_table = true
  /\ channelNames "bridge" "infra" sample_table = ["#bridge"]
  /\ channelNames "bridge" "infra" sample_table <> [].
Proof.
  split; [vm_compute; reflexivity|].
  split; [vm_compute; reflexivity|].
  apply (proj2 (channelNames_precedence "bridge" "infra" sample_table)).
  vm_compute; reflexivity.
Defined.

(** C1 (as stated) fails: a key mapped to an empty list of channels is
    found by [contains], and the message then goes nowhere, not even to
    the default channel. *)
Lemma channelNames_empty_list :
  contains (ExplicitMappings silent_table) "infra/bridge" = true
  /\ channelNames "bridge" "infra" silent_table = [].
Proof. split; vm_compute; reflexivity. Qed.

(** ** Runs *)

Section RunLaws.
Context {R : Type}.

Lemma bind_ret {A B : Type} (a : A) (f : A -> Run R B) : mret a ≫= f = f a.
Proof. unfold mbind, Run_bind, mret, Run_ret. destruct (f a); reflexivity. Qed.

Lemma bind_stop {A B : Type} (s : Stop) (f : A -> Run R B) : stop s ≫= f = stop s.
Proof. reflexivity. Qed.

Lemma bind_must {A B : Type} (a : A) (f : A -> Run R B) : must (Some a) ≫= f = f a.
Proof. apply bind_ret. Qed.

Lemma bind_send {B : Type} (message projectName namespace : string)
    (channelMapping : Mapping) (f : unit -> Run R B) :
  sendMessage message projectName namespace channelMapping ≫= f
  = prepend (map (fun channelName => Privmsg channelName message)
               (channelNames projectName namespace channelMapping)) (f tt).
Proof. unfold mbind, Run_bind, sendMessage, prepend. destruct (f tt); reflexivity. Qed.

Lemma prepend_nil {A : Type} (m : Run R A) : prepend [] m = m.
Proof. destruct m; reflexivity. Qed.

Lemma prepend_prepend {A : Type} (t1 t2 : list (Effect R)) (m : Run R A) :
  prepend t1 (prepend t2 m) = prepend (t1 ++ t2) m.
Proof. unfold prepend. simpl. rewrite app_assoc. reflexivity. Qed.

Lemma prepend_bind {A B : Type} (t : list (Effect R)) (m : Run R A) (f : A -> Run R B) :
  prepend t m ≫= f = prepend t (m ≫= f).
Proof.
  unfold mbind, Run_bind, prepend. destruct m as [t1 [a|s]]; simpl.
  - destruct (f a). simpl. rewrite app_assoc. reflexivity.
  - reflexivity.
Qed.

Lemma finish_prepend (t : list (Effect R)) (m : Run R unit) :
  finish (prepend t m) = (t ++ fst (finish m), snd (finish m)).
Proof. destruct m as [t1 [[]|[]]]; reflexivity. Qed.

End RunLaws.

(** ** The push case *)

(** One step of a run: the binds are unfolded and the fields read. *)
Ltac run :=
  unfold mbind, Run_bind, execute, sendMessage, must, mret, Run_ret;
  cbn [fst snd PushEvent.set_Branch PushEvent.set_Commits
       PushEvent.set_BeforeCommit PushEvent.set_AfterCommit
       PushEvent.UserName PushEvent.BeforeCommit PushEvent.AfterCommit
       PushEvent.Project PushEvent.Commits PushEvent.TotalCommits
       PushEvent.Branch elems].

(** Both sides are the same lines, up to the grouping of the appends. *)
Ltac same_lines :=
  unfold branch_create_line, branch_delete_line, summary_line, more_line,
    line, deliveries, shortened;
  cbn [fst snd app PushEvent.set_Branch PushEvent.set_Commits
       PushEvent.set_BeforeCommit PushEvent.set_AfterCommit
       PushEvent.UserName PushEvent.BeforeCommit PushEvent.AfterCommit
       PushEvent.Project PushEvent.Commits PushEvent.TotalCommits
       PushEvent.Branch elems];
  rewrite <- ?app_assoc, ?app_nil_r; cbn [app]; reflexivity.


Section PushHook.

Variable Execute : Template -> Data -> string * bool.
Variable UnescapeString : string -> string.
Variable channelMapping : Mapping.

Lemma bind_execute {B : Type} (t : Template) (d : Data)
    (f : string * bool -> Run (Template * Data) B) :
  execute Execute t d ≫= f = prepend [Executed (t, d)] (f (Execute t d)).
Proof. unfold mbind, Run_bind, execute, prepend. destruct (f _); reflexivity. Qed.

Lemma slice_to_long (s : string) (n : nat) :
  (n <= String.length s)%nat -> slice_to s n = Some (String.substring 0 n s).
Proof. intros H. unfold slice_to. apply Nat.leb_le in H. rewrite H. reflexivity. Qed.

Lemma slice_to_short (s : string) (n : nat) :
  (String.length s < n)%nat -> slice_to s n = None.
Proof. intros H. unfold slice_to. apply Nat.leb_gt in H. rewrite H. reflexivity. Qed.

(** The loop over commits that all render: one line each, in order. *)
Lemma range_commits_lines (pushEvent : PushEvent.t) (commits : list Commit.t) :
  Forall (renders Execute UnescapeString) commits ->
  range_commits Execute UnescapeString pushEvent channelMapping commits
  = (flat_map (commit_line Execute UnescapeString channelMapping
                 (PushEvent.Project pushEvent)) commits, inl tt).
Proof.
  induction 1 as [|commit rest [Hid Herr] _ IH]; [reflexivity|].
  cbn [range_commits flat_map].
  rewrite (slice_to_long _ _ Hid), bind_must, bind_execute.
  fold (context_of UnescapeString commit). rewrite Herr.
  rewrite bind_send, IH. reflexivity.
Qed.

Lemma dispatch_push (eventType : string) (others : list string) (body : Body.t) :
  push_label eventType = true ->
  CreateFunctionNotifyFunction Execute UnescapeString channelMapping
    (Request.mk (eventType :: others) body)
  = pushHook Execute UnescapeString channelMapping body.
Proof.
  unfold push_label. rewrite orb_true_iff.
  intros [H|H]; apply String.eqb_eq in H; subst eventType;
    unfold CreateFunctionNotifyFunction;
    change (index (Request.Header (Request.mk (?x :: others) body)) 0) with (Some x);
    rewrite bind_must; reflexivity.
Qed.

Variable body : Body.t.
Variable e : PushEvent.t.
Variable branch : string.
Hypothesis Hdecode : Body.PushEvent body = Some e.
Hypothesis Hbranch : index (strings.Split (PushEvent.Branch e) "/") 2 = Some branch.

Let e1 : PushEvent.t := PushEvent.set_Branch e branch.

Lemma pushHook_deleted :
  String.eqb (PushEvent.AfterCommit e) NullCommit = true ->
  pushHook Execute UnescapeString channelMapping body
  = (branch_delete_line Execute channelMapping e1, inl tt).
Proof.
  intros Hafter. unfold pushHook. rewrite Hdecode, Hbranch, bind_must.
  cbn [PushEvent.set_Branch PushEvent.AfterCommit]. rewrite Hafter.
  rewrite bind_execute, <- (bind_ret tt (fun _ => sendMessage _ _ _ _)).
  reflexivity.
Qed.

Lemma pushHook_quiet :
  String.eqb (PushEvent.AfterCommit e) NullCommit = false ->
  PushEvent.TotalCommits e <= 0 ->
  pushHook Execute UnescapeString channelMapping body
  = (if String.eqb (PushEvent.BeforeCommit e) NullCommit
     then branch_create_line Execute channelMapping e1 else [], inl tt).
Proof.
  intros Hafter Htotal. unfold pushHook. rewrite Hdecode, Hbranch, bind_must.
  cbn [PushEvent.set_Branch PushEvent.AfterCommit PushEvent.BeforeCommit
       PushEvent.TotalCommits PushEvent.Project].
  rewrite Hafter. apply Z.ltb_ge in Htotal. rewrite Htotal.
  destruct (String.eqb (PushEvent.BeforeCommit e) NullCommit).
  - rewrite bind_execute, prepend_bind, bind_send.
    unfold prepend, branch_create_line, line, deliveries.
    cbn [fst snd mret Run_ret app e1 PushEvent.set_Branch PushEvent.Project].
    rewrite app_nil_r. reflexivity.
  - rewrite bind_ret. reflexivity.
Qed.

Lemma reslice_long (commits : slice Commit.t) :
  (3 <= len commits)%nat ->
  reslice commits 3
  = Some (mkSlice (take 3 (elems commits)) (drop 3 (elems commits ++ spare commits))).
Proof.
  intros H. unfold reslice, cap, len in *.
  replace (3 <=? _)%nat with true by (symmetry; apply Nat.leb_le; lia).
  rewrite take_app_le by exact H. reflexivity.
Qed.

Lemma pushHook_commits :
  String.eqb (PushEvent.AfterCommit e) NullCommit = false ->
  0 < PushEvent.TotalCommits e ->
  (String.eqb (PushEvent.BeforeCommit e) NullCommit = false ->
   (7 <= String.length (PushEvent.BeforeCommit e))%nat
   /\ (7 <= String.length (PushEvent.AfterCommit e))%nat) ->
  (3 < PushEvent.TotalCommits e -> (3 <= len (PushEvent.Commits e))%nat) ->
  Forall (renders Execute UnescapeString) (shown e) ->
  pushHook Execute UnescapeString channelMapping body
  = ((if String.eqb (PushEvent.BeforeCommit e) NullCommit
      then branch_create_line Execute channelMapping e1 else [])
     ++ summary_line Execute channelMapping e1
     ++ flat_map (commit_line Execute UnescapeString channelMapping
                    (PushEvent.Project e)) (shown e)
     ++ (if 3 <? PushEvent.TotalCommits e
         then more_line channelMapping e (int_sub (PushEvent.TotalCommits e) 3)
         else []),
     inl tt).
Proof.
  intros Hafter Htotal Hhashes Hlen Hshown.
  unfold pushHook. rewrite Hdecode, Hbranch, bind_must.
  cbn [PushEvent.set_Branch PushEvent.AfterCommit PushEvent.BeforeCommit
       PushEvent.TotalCommits PushEvent.Project].
  rewrite Hafter. apply Z.ltb_lt in Htotal. rewrite Htotal.
  unfold summary_line, shown in *.
  cbn [e1 PushEvent.set_Branch PushEvent.BeforeCommit PushEvent.Project].
  destruct (String.eqb (PushEvent.BeforeCommit e) NullCommit) eqn:Hbefore;
    [|destruct (Hhashes eq_refl) as [Hb Ha]];
    (destruct (3 <? PushEvent.TotalCommits e) eqn:Hmore;
     [pose proof (Hlen ltac:(apply Z.ltb_lt; exact Hmore)) as H3|]);
    run; rewrite ?(slice_to_long _ _ Hb); run; rewrite ?(slice_to_long _ _ Ha);
    run; rewrite Hmore; run; rewrite ?(reslice_long _ H3); run;
    rewrite range_commits_lines by exact Hshown; run;
    rewrite ?Hmore; same_lines.
Qed.

End PushHook.

Lemma int_sub_exact (a b : Z) : int_min <= a - b <= int_max -> int_sub a b = a - b.
Proof.
  unfold int_sub, wrap, int_min, int_max. intros H.
  rewrite Z.mod_small by lia. lia.
Qed.

Lemma rendered_deliveries (channelMapping : Mapping) (message : string) (p : Project.t) :
  rendered (deliveries channelMapping message p) = [].
Proof.
  unfold deliveries, rendered.
  induction (channelNames _ _ _) as [|c l IH]; [reflexivity|exact IH].
Qed.

Lemma templates_line (Execute : Template -> Data -> string * bool)
    (channelMapping : Mapping) (t : Template) (d : Data) (p : Project.t) :
  templates (line Execute channelMapping t d p) = [t].
Proof.
  unfold templates, line. change (rendered (Executed (t, d) :: ?l)) with ((t, d) :: rendered l).
  rewrite rendered_deliveries. reflexivity.
Qed.

Section PushClaims.

Variable Execute : Template -> Data -> string * bool.
Variable UnescapeString : string -> string.
Variable channelMapping : Mapping.
Variables (eventType : string) (others : list string) (body : Body.t).
Variables (e : PushEvent.t) (branch : string).

Let req : Request.t := Request.mk (eventType :: others) body.
Let e1 : PushEvent.t := PushEvent.set_Branch e branch.

(** C5 (as amended): a push event whose count exceeds 3, whose list
    holds at least 3 commits and whose after-hash is not the sentinel
    produces, in this order: a branch-create line when the before-hash
    is the sentinel, one push-summary line, one commit line for each of
    the first 3 commits, and one line "and N more commits." with N the
    count minus 3. *)
Theorem push_more_than_three :
  push_label eventType = true ->
  Body.PushEvent body = Some e ->
  index (strings.Split (PushEvent.Branch e) "/") 2 = Some branch ->
  3 < PushEvent.TotalCommits e <= int_max ->
  (3 <= len (PushEvent.Commits e))%nat ->
  String.eqb (PushEvent.AfterCommit e) NullCommit = false ->
  (String.eqb (PushEvent.BeforeCommit e) NullCommit = false ->
   (7 <= String.length (PushEvent.BeforeCommit e))%nat
   /\ (7 <= String.length (PushEvent.AfterCommit e))%nat) ->
  Forall (renders Execute UnescapeString) (take 3 (elems (PushEvent.Commits e))) ->
  serve Execute UnescapeString channelMapping req
  = ((if String.eqb (PushEvent.BeforeCommit e) NullCommit
      then branch_create_line Execute channelMapping e1 else [])
     ++ summary_line Execute channelMapping e1
     ++ flat_map (commit_line Execute UnescapeString channelMapping
                    (PushEvent.Project e)) (take 3 (elems (PushEvent.Commits e)))
     ++ more_line channelMapping e (PushEvent.TotalCommits e - 3),
     Completed)
  /\ length (take 3 (elems (PushEvent.Commits e))) = 3%nat.
Proof.
  intros Hlabel Hdecode Hbranch [Hmore Hmax] Hlen Hafter Hhashes Hshown.
  split; [|rewrite length_take; unfold len in Hlen; lia].
  unfold serve, req. rewrite dispatch_push by exact Hlabel.
  assert (Hmore' : (3 <? PushEvent.TotalCommits e) = true) by (apply Z.ltb_lt; lia).
  assert (Hshown' : Forall (renders Execute UnescapeString) (shown e))
    by (unfold shown; rewrite Hmore'; exact Hshown).
  rewrite (pushHook_commits Execute UnescapeString channelMapping body e branch
             Hdecode Hbranch Hafter ltac:(lia) Hhashes (fun _ => Hlen) Hshown').
  rewrite Hmore', int_sub_exact by (unfold int_min, int_max in *; lia).
  unfold shown. rewrite Hmore'. reflexivity.
Qed.


(** C8 (as amended): a push event whose count is 0 produces no commit
    line, no "more commits" line and no push-summary line either:
    nothing at all when neither hash is the sentinel, one branch-delete
    line when the after-hash is the sentinel, one branch-create line
    when only the before-hash is. *)
Theorem push_no_commits :
  push_label eventType = true ->
  Body.PushEvent body = Some e ->
  index (strings.Split (PushEvent.Branch e) "/") 2 = Some branch ->
  PushEvent.TotalCommits e = 0 ->
  serve Execute UnescapeString channelMapping req
  = (if String.eqb (PushEvent.AfterCommit e) NullCommit
     then branch_delete_line Execute channelMapping e1
     else if String.eqb (PushEvent.BeforeCommit e) NullCommit
          then branch_create_line Execute channelMapping e1
          else [],
     Completed)
  /\ (forall t, In t (templates (fst (serve Execute UnescapeString channelMapping req))) ->
      t = branchDeleteTemplate \/ t = branchCreateTemplate).
Proof.
  intros Hlabel Hdecode Hbranch Htotal.
  assert (Hrun : serve Execute UnescapeString channelMapping req
    = (if String.eqb (PushEvent.AfterCommit e) NullCommit
       then branch_delete_line Execute channelMapping e1
       else if String.eqb (PushEvent.BeforeCommit e) NullCommit
            then branch_create_line Execute channelMapping e1
            else [],
       Completed)).
  { unfold serve, req. rewrite dispatch_push by exact Hlabel.
    destruct (String.eqb (PushEvent.AfterCommit e) NullCommit) eqn:Hafter.
    - rewrite (pushHook_deleted Execute UnescapeString channelMapping body e branch
                 Hdecode Hbranch Hafter). reflexivity.
    - rewrite (pushHook_quiet Execute UnescapeString channelMapping body e branch
                 Hdecode Hbranch Hafter) by lia. reflexivity. }
  split; [exact Hrun|].
  rewrite Hrun. cbn [fst]. intros t Ht.
  destruct (String.eqb (PushEvent.AfterCommit e) NullCommit);
    [|destruct (String.eqb (PushEvent.BeforeCommit e) NullCommit)];
    unfold branch_delete_line, branch_create_line in Ht;
    rewrite ?templates_line in Ht; simpl in Ht; intuition.
Qed.

End PushClaims.

Lemma push_more_than_three_witness :
  let run := serve sample_Execute sample_Unescape default_table (push_request push_five) in
  templates (fst run)
  = [pushCompareTemplate; commitTemplate; commitTemplate; commitTemplate]
  /\ delivered (fst run)
     = [ ("#default", "push notification"); ("#default", "commit notification");
         ("#default", "commit notification"); ("#default", "commit notification");
         ("#default", "and 2 more commits.") ]
  /\ snd run = Completed.
Proof.
  cbv zeta.
  destruct (push_more_than_three sample_Execute sample_Unescape default_table
              "Push Hook" [] (push_body push_five) push_five "feature") as [Hrun _].
  - reflexivity.
  - reflexivity.
  - reflexivity.
  - unfold int_max, push_five, sample_push. cbn [PushEvent.TotalCommits]. lia.
  - unfold push_five, sample_push, len. simpl. lia.
  - reflexivity.
  - intros _. simpl. lia.
  - repeat constructor; simpl; lia.
  - unfold push_request. rewrite Hrun. vm_compute. repeat split.
Defined.

(** C5 (as stated) fails: five commits pushed to a new branch give six
    lines, the first of which is the branch-create line. *)
Lemma push_new_branch_six_lines :
  let run :=
    serve sample_Execute sample_Unescape default_table (push_request push_new_branch_five) in
  templates (fst run)
  = [branchCreateTemplate; pushCommitLogTemplate;
     commitTemplate; commitTemplate; commitTemplate]
  /\ delivered (fst run)
     = [ ("#default", "branch creat notification");
         ("#default", "push to new branch notification");
         ("#default", "commit notification"); ("#default", "commit notification");
         ("#default", "commit notification"); ("#default", "and 2 more commits.") ]
  /\ snd run = Completed.
Proof. vm_compute. repeat split. Qed.



Lemma push_no_commits_witness :
  serve sample_Execute sample_Unescape default_table
    (push_request (sample_push NullCommit hash_b 0 []))
  = ([ Executed (branchCreateTemplate,
                 OfPush (PushEvent.set_Branch (sample_push NullCommit hash_b 0 []) "feature"));
       Privmsg "#default" "branch creat notification" ],
     Completed).
Proof.
  destruct (push_no_commits sample_Execute sample_Unescape default_table
              "Push Hook" [] (push_body (sample_push NullCommit hash_b 0 []))
              (sample_push NullCommit hash_b 0 []) "feature") as [Hrun _].
  - reflexivity.
  - reflexivity.
  - reflexivity.
  - reflexivity.
  - unfold push_request. rewrite Hrun. vm_compute. reflexivity.
Defined.

(** C8 (as stated) fails: with no commit and two real hashes the handler
    produces nothing, the push-summary line included. *)
Lemma push_empty_no_summary :
  serve sample_Execute sample_Unescape default_table (push_request push_empty)
  = ([], Completed).
Proof. vm_compute. reflexivity. Qed.

(** ** The other cases of the switch *)

Section Dispatch.

Variable Execute : Template -> Data -> string * bool.
Variable UnescapeString : string -> string.
Variable channelMapping : Mapping.
Variables (others : list string) (body : Body.t).

Lemma dispatch_pipeline :
  CreateFunctionNotifyFunction Execute UnescapeString channelMapping
    (Request.mk ("Pipeline Hook" :: others) body)
  = pipelineHook Execute channelMapping body.
Proof.
  unfold CreateFunctionNotifyFunction.
  change (index (Request.Header (Request.mk (?x :: others) body)) 0) with (Some x).
  rewrite bind_must. reflexivity.
Qed.

Lemma dispatch_job :
  CreateFunctionNotifyFunction Execute UnescapeString channelMapping
    (Request.mk ("Job Hook" :: others) body)
  = jobHook Execute channelMapping body.
Proof.
  unfold CreateFunctionNotifyFunction.
  change (index (Request.Header (Request.mk (?x :: others) body)) 0) with (Some x).
  rewrite bind_must. reflexivity.
Qed.

Lemma dispatch_merge (eventType : string) :
  eventType = "Merge Request Hook" \/ eventType = "Merge Request Event" ->
  CreateFunctionNotifyFunction Execute UnescapeString channelMapping
    (Request.mk (eventType :: others) body)
  = mergeRequestHook Execute channelMapping body.
Proof.
  intros [H|H]; subst eventType; unfold CreateFunctionNotifyFunction;
    change (index (Request.Header (Request.mk (?x :: others) body)) 0) with (Some x);
    rewrite bind_must; reflexivity.
Qed.

Lemma dispatch_issue (eventType : string) :
  eventType = "Issue Hook" \/ eventType = "Issue Event" ->
  CreateFunctionNotifyFunction Execute UnescapeString channelMapping
    (Request.mk (eventType :: others) body)
  = issueHook Execute channelMapping body.
Proof.
  intros [H|H]; subst eventType; unfold CreateFunctionNotifyFunction;
    change (index (Request.Header (Request.mk (?x :: others) body)) 0) with (Some x);
    rewrite bind_must; reflexivity.
Qed.

(** C7: a pipeline event whose status is "pending" is dropped right
    after it is decoded: nothing is rendered, nothing is delivered, and
    the commit hash is not even looked at. *)
Theorem pipeline_pending_dropped (pipelineEvent : PipelineEvent.t) :
  Body.PipelineEvent body = Some pipelineEvent ->
  Pipeline.Status (PipelineEvent.Pipeline pipelineEvent) = "pending" ->
  serve Execute UnescapeString channelMapping
    (Request.mk ("Pipeline Hook" :: others) body)
  = ([], Completed).
Proof.
  intros Hdecode Hstatus. unfold serve. rewrite dispatch_pipeline.
  unfold pipelineHook. rewrite Hdecode, Hstatus. reflexivity.
Qed.

(** C10: a job event whose status is neither "success" nor "failed" is
    dropped: nothing is rendered, nothing is delivered. *)
Theorem job_unfinished_dropped (jobEvent : JobEvent.t) :
  Body.JobEvent body = Some jobEvent ->
  JobEvent.Status jobEvent <> "success" ->
  JobEvent.Status jobEvent <> "failed" ->
  serve Execute UnescapeString channelMapping
    (Request.mk ("Job Hook" :: others) body)
  = ([], Completed).
Proof.
  intros Hdecode Hsuccess Hfailed. unfold serve. rewrite dispatch_job.
  unfold jobHook. rewrite Hdecode.
  apply String.eqb_neq in Hsuccess, Hfailed. rewrite Hsuccess, Hfailed.
  reflexivity.
Qed.

End Dispatch.

Lemma pipeline_pending_dropped_witness :
  serve sample_Execute sample_Unescape sample_table
    (Request.mk ["Pipeline Hook"] (pipeline_body (sample_pipeline "pending" "1f3")))
  = ([], Completed).
Proof.
  apply (pipeline_pending_dropped sample_Execute sample_Unescape sample_table []
           (pipeline_body (sample_pipeline "pending" "1f3"))
           (sample_pipeline "pending" "1f3")).
  - reflexivity.
  - reflexivity.
Defined.

Lemma job_unfinished_dropped_witness :
  serve sample_Execute sample_Unescape sample_table
    (Request.mk ["Job Hook"] (job_body (sample_job "running")))
  = ([], Completed).
Proof.
  apply (job_unfinished_dropped sample_Execute sample_Unescape sample_table []
           (job_body (sample_job "running")) (sample_job "running")).
  - reflexivity.
  - simpl. discriminate.
  - simpl. discriminate.
Defined.

(** ** Keywords outside the tables *)

Lemma HookActions_unknown (action : string) :
  ~ In action action_keywords -> lookup_string HookActions action = "".
Proof.
  intros Hnot. unfold lookup_string, HookActions.
  rewrite not_elem_of_list_to_map_1; [reflexivity|].
  intros Hin. apply Hnot. apply list_elem_of_In. exact Hin.
Qed.

Lemma HookActions_known :
  map (lookup_string HookActions) action_keywords
  = ["opened"; "updated"; "closed"; "reopened"; "merged"].
Proof. vm_compute. reflexivity. Qed.

Section UnknownKeywords.

Variable Execute : Template -> Data -> string * bool.
Variable UnescapeString : string -> string.
Variable channelMapping : Mapping.
Variables (others : list string) (body : Body.t).

(** C9 (as amended): an issue or merge event whose action keyword is
    not one of open, update, close, reopen, merge is rendered with an
    empty action (the raw keyword does not pass through and no error is
    raised) and its message is delivered; status keywords are treated
    otherwise: a pipeline event whose status is none of pending,
    running, success, failed (and whose hash has 7 characters or more)
    and a job event whose status is neither success nor failed produce
    no message. *)
Theorem unknown_keywords :
  (forall (eventType : string) (issueEvent : IssueEvent.t),
      eventType = "Issue Hook" \/ eventType = "Issue Event" ->
      Body.IssueEvent body = Some issueEvent ->
      ~ In (Issue.Action (IssueEvent.Issue issueEvent)) action_keywords ->
      serve Execute UnescapeString channelMapping (Request.mk (eventType :: others) body)
      = (line Execute channelMapping issueTemplate
           (OfIssue (IssueEvent.set_Issue issueEvent
                       (Issue.set_Action (IssueEvent.Issue issueEvent) "")))
           (IssueEvent.Project issueEvent),
         Completed))
  /\ (forall (eventType : string) (mergeEvent : MergeEvent.t),
      eventType = "Merge Request Hook" \/ eventType = "Merge Request Event" ->
      Body.MergeEvent body = Some mergeEvent ->
      ~ In (Merge.Action (MergeEvent.Merge mergeEvent)) action_keywords ->
      serve Execute UnescapeString channelMapping (Request.mk (eventType :: others) body)
      = (line Execute channelMapping mergeTemplate
           (OfMerge (MergeEvent.set_Merge mergeEvent
                       (Merge.set_Action (MergeEvent.Merge mergeEvent) "")))
           (MergeEvent.Project mergeEvent),
         Completed))
  /\ (forall pipelineEvent : PipelineEvent.t,
      Body.PipelineEvent body = Some pipelineEvent ->
      ~ In (Pipeline.Status (PipelineEvent.Pipeline pipelineEvent)) pipeline_keywords ->
      (7 <= String.length (Pipeline.Commit (PipelineEvent.Pipeline pipelineEvent)))%nat ->
      serve Execute UnescapeString channelMapping
        (Request.mk ("Pipeline Hook" :: others) body)
      = ([], Completed))
  /\ (forall jobEvent : JobEvent.t,
      Body.JobEvent body = Some jobEvent ->
      ~ In (JobEvent.Status jobEvent) ["success"; "failed"] ->
      serve Execute UnescapeString channelMapping
        (Request.mk ("Job Hook" :: others) body)
      = ([], Completed)).
Proof.
  repeat split.
  - intros eventType issueEvent Hlabel Hdecode Haction.
    unfold serve. rewrite dispatch_issue by exact Hlabel.
    unfold issueHook. rewrite Hdecode, (HookActions_unknown _ Haction).
    rewrite bind_execute, <- (bind_ret tt (fun _ => sendMessage _ _ _ _)).
    reflexivity.
  - intros eventType mergeEvent Hlabel Hdecode Haction.
    unfold serve. rewrite dispatch_merge by exact Hlabel.
    unfold mergeRequestHook. rewrite Hdecode, (HookActions_unknown _ Haction).
    rewrite bind_execute, <- (bind_ret tt (fun _ => sendMessage _ _ _ _)).
    reflexivity.
  - intros pipelineEvent Hdecode Hstatus Hcommit.
    unfold serve. rewrite dispatch_pipeline.
    unfold pipelineHook. rewrite Hdecode.
    unfold pipeline_keywords in Hstatus. cbn [In] in Hstatus.
    assert (Hp : String.eqb (Pipeline.Status (PipelineEvent.Pipeline pipelineEvent))
                   "pending" = false) by (apply String.eqb_neq; intuition).
    assert (Hr : String.eqb (Pipeline.Status (PipelineEvent.Pipeline pipelineEvent))
                   "running" = false) by (apply String.eqb_neq; intuition).
    assert (Hs : String.eqb (Pipeline.Status (PipelineEvent.Pipeline pipelineEvent))
                   "success" = false) by (apply String.eqb_neq; intuition).
    assert (Hf : String.eqb (Pipeline.Status (PipelineEvent.Pipeline pipelineEvent))
                   "failed" = false) by (apply String.eqb_neq; intuition).
    rewrite Hp, (slice_to_long _ _ Hcommit), bind_must.
    cbn [PipelineEvent.set_Pipeline PipelineEvent.Pipeline Pipeline.set_Commit
         Pipeline.Status].
    rewrite Hr, Hs, Hf. reflexivity.
  - intros jobEvent Hdecode Hstatus. cbn [In] in Hstatus.
    unfold serve. rewrite dispatch_job. unfold jobHook. rewrite Hdecode.
    assert (Hs : String.eqb (JobEvent.Status jobEvent) "success" = false)
      by (apply String.eqb_neq; intuition).
    assert (Hf : String.eqb (JobEvent.Status jobEvent) "failed" = false)
      by (apply String.eqb_neq; intuition).
    rewrite Hs, Hf. reflexivity.
Qed.

End UnknownKeywords.

Lemma unknown_keywords_witness :
  serve sample_Execute sample_Unescape default_table
    (Request.mk ["Issue Hook"] (issue_body (sample_issue "approved")))
  = ([Executed (issueTemplate, OfIssue (sample_issue ""));
      Privmsg "#default" "issue notification"], Completed)
  /\ serve sample_Execute sample_Unescape default_table
       (Request.mk ["Merge Request Hook"] (merge_body (sample_merge "approved")))
     = ([Executed (mergeTemplate, OfMerge (sample_merge ""));
         Privmsg "#default" "merge notification"], Completed)
  /\ serve sample_Execute sample_Unescape default_table
       (Request.mk ["Pipeline Hook"] (pipeline_body (sample_pipeline "canceled" hash_a)))
     = ([], Completed)
  /\ serve sample_Execute sample_Unescape default_table
       (Request.mk ["Job Hook"] (job_body (sample_job "canceled")))
     = ([], Completed).
Proof.
  split; [|split; [|split]].
  - rewrite (proj1 (unknown_keywords sample_Execute sample_Unescape default_table []
                      (issue_body (sample_issue "approved")))
               "Issue Hook" (sample_issue "approved")).
    + vm_compute. reflexivity.
    + left. reflexivity.
    + reflexivity.
    + simpl. intuition discriminate.
  - rewrite (proj1 (proj2 (unknown_keywords sample_Execute sample_Unescape default_table []
                             (merge_body (sample_merge "approved"))))
               "Merge Request Hook" (sample_merge "approved")).
    + vm_compute. reflexivity.
    + left. reflexivity.
    + reflexivity.
    + simpl. intuition discriminate.
  - apply (proj1 (proj2 (proj2 (unknown_keywords sample_Execute sample_Unescape
                                  default_table []
                                  (pipeline_body (sample_pipeline "canceled" hash_a)))))
             (sample_pipeline "canceled" hash_a)).
    + reflexivity.
    + simpl. intuition discriminate.
    + simpl. lia.
  - apply (proj2 (proj2 (proj2 (unknown_keywords sample_Execute sample_Unescape
                                  default_table []
                                  (job_body (sample_job "canceled")))))
             (sample_job "canceled")).
    + reflexivity.
    + simpl. intuition discriminate.
Defined.

(** C9 (as stated) fails: the action "approved" is in no table; the
    message is rendered and delivered all the same (no render error), with
    an empty action in place of the raw keyword (no pass-through). *)
Lemma unknown_action_rendered_blank :
  serve sample_Execute sample_Unescape default_table
    (Request.mk ["Issue Hook"] (issue_body (sample_issue "approved")))
  = ([Executed (issueTemplate, OfIssue (sample_issue ""));
      Privmsg "#default" "issue notification"], Completed)
  /\ sample_issue "" <> sample_issue "approved".
Proof. split; [vm_compute; reflexivity|discriminate]. Qed.

(** ** Decoding errors *)

(** C3 (the code at the failing input): on a body that does not decode,
    the pipeline, job, merge request and issue cases call [log.Fatal],
    which ends the process; the push case alone logs the error and
    returns.  The small variant does the same for its issue case. *)
Theorem decode_failure_exits
    (Execute : Template -> Data -> string * bool) (UnescapeString : string -> string)
    (Execute1 : V1.Template -> V1.Data -> string * bool) (channelMapping : Mapping) :
  serve Execute UnescapeString channelMapping (Request.mk ["Pipeline Hook"] malformed_body)
  = ([], Exited)
  /\ serve Execute UnescapeString channelMapping (Request.mk ["Job Hook"] malformed_body)
     = ([], Exited)
  /\ serve Execute UnescapeString channelMapping
       (Request.mk ["Merge Request Hook"] malformed_body)
     = ([], Exited)
  /\ serve Execute UnescapeString channelMapping (Request.mk ["Issue Hook"] malformed_body)
     = ([], Exited)
  /\ serve Execute UnescapeString channelMapping (Request.mk ["Push Hook"] malformed_body)
     = ([], Completed)
  /\ V1.serve Execute1 channelMapping (V1.Request.mk ["Issue Hook"] malformed_body_v1)
     = ([], Exited)
  /\ V1.serve Execute1 channelMapping (V1.Request.mk ["Push Hook"] malformed_body_v1)
     = ([], Completed).
Proof. repeat split. Qed.

(** ** The branch name *)

(** C2 (the code at the failing input): the branch name is the single
    component at index 2 of the ref; on "refs/heads/feature/x" it is
    "feature", where the components from index 2 onward, joined again,
    are "feature/x".  Both variants hand the truncated name to their
    templates. *)
Theorem nested_branch_truncated :
  index (strings.Split "refs/heads/feature/x" "/") 2 = Some "feature"
  /\ branch_from_index_2 "refs/heads/feature/x" = "feature/x"
  /\ rendered (fst (serve sample_Execute sample_Unescape default_table
                      (push_request push_deleted)))
     = [(branchDeleteTemplate, OfPush (PushEvent.set_Branch push_deleted "feature"))]
  /\ rendered (fst (V1.serve sample_Execute_v1 default_table
                      (push_request_v1 (sample_push_v1 []))))
     = [(V1.pushTemplate, V1.OfPush (V1.PushEvent.set_Branch (sample_push_v1 []) "feature"))].
Proof. repeat split. Qed.

(** ** Hash shortening *)

Lemma substring_prefix (n : nat) (s : string) :
  (n <= String.length s)%nat ->
  exists rest, s = String.substring 0 n s +:+ rest
               /\ String.length (String.substring 0 n s) = n.
Proof.
  revert s. induction n as [|n IH]; intros s Hn.
  - exists s. destruct s; split; reflexivity.
  - destruct s as [|c s]; [simpl in Hn; lia|].
    destruct (IH s) as [rest [Hs Hl]]; [simpl in Hn; lia|].
    exists rest. cbn [String.substring String.length].
    change (String c ?x +:+ rest) with (String c (x +:+ rest)). split.
    + f_equal. exact Hs.
    + f_equal. exact Hl.
Qed.

Lemma substring_whole (s : string) : String.substring 0 (String.length s) s = s.
Proof.
  induction s as [|c s IH]; [reflexivity|].
  cbn [String.substring String.length]. f_equal. exact IH.
Qed.

(** C4 (as amended): the id that the commit loop hands to the commit
    template is the first 7 characters of the commit id (the first 8 in
    the small variant) whenever the id has that many, so an id of exactly
    that length is rendered unchanged; on a shorter id the slice
    expression is a run-time panic and the loop stops before the commit
    is rendered.  In general, cutting a hash to [n] characters gives its
    first [n] characters when it has at least [n], the hash itself when
    it has exactly [n], and panics when it has fewer. *)
Theorem hash_shortening (s : string) (n : nat) :
  ((n <= String.length s)%nat ->
   exists short rest,
     slice_to s n = Some short /\ s = short +:+ rest /\ String.length short = n)
  /\ (String.length s = n -> slice_to s n = Some s)
  /\ ((String.length s < n)%nat -> slice_to s n = None)
  /\ (forall Execute UnescapeString pushEvent channelMapping commit rest,
        Commit.Id commit = s -> (String.length s < 7)%nat ->
        range_commits Execute UnescapeString pushEvent channelMapping (commit :: rest)
        = ([], inr Panic))
  /\ (forall Execute pushEvent channelMapping commit rest,
        V1.Commit.Id commit = s -> (String.length s < 8)%nat ->
        V1.range_commits Execute pushEvent channelMapping (commit :: rest)
        = ([], inr Panic))
  /\ (forall Execute UnescapeString pushEvent channelMapping commit rest,
        Commit.Id commit = s -> (7 <= String.length s)%nat ->
        exists short tail,
          s = short +:+ tail /\ String.length short = 7%nat
          /\ (String.length s = 7%nat -> short = s)
          /\ let context :=
               CommitContext.mk short (UnescapeString (Commit.Message commit))
                 (Commit.Author commit)
                 (Z.of_nat (length (Commit.Added commit)))
                 (Z.of_nat (length (Commit.Modified commit)))
                 (Z.of_nat (length (Commit.Removed commit))) in
             range_commits Execute UnescapeString pushEvent channelMapping
               (commit :: rest)
             = prepend [Executed (commitTemplate, OfCommit context)]
                 (if snd (Execute commitTemplate (OfCommit context))
                  then stop Return
                  else
                    sendMessage (fst (Execute commitTemplate (OfCommit context)))
                      (Project.Name (PushEvent.Project pushEvent))
                      (Project.Namespace (PushEvent.Project pushEvent)) channelMapping;;
                    range_commits Execute UnescapeString pushEvent channelMapping rest))
  /\ (forall Execute pushEvent channelMapping commit rest,
        V1.Commit.Id commit = s -> (8 <= String.length s)%nat ->
        exists short tail,
          s = short +:+ tail /\ String.length short = 8%nat
          /\ (String.length s = 8%nat -> short = s)
          /\ let context :=
               V1.CommitContext.mk short (V1.Commit.Message commit)
                 (Z.of_nat (length (V1.Commit.Added commit)))
                 (Z.of_nat (length (V1.Commit.Modified commit)))
                 (Z.of_nat (length (V1.Commit.Removed commit))) in
             V1.range_commits Execute pushEvent channelMapping (commit :: rest)
             = prepend [Executed (V1.commitTemplate, V1.OfCommit context)]
                 (if snd (Execute V1.commitTemplate (V1.OfCommit context))
                  then stop Return
                  else
                    sendMessage (fst (Execute V1.commitTemplate (V1.OfCommit context)))
                      (V1.Project.Name (V1.PushEvent.Project pushEvent))
                      (V1.Project.Namespace (V1.PushEvent.Project pushEvent))
                      channelMapping;;
                    V1.range_commits Execute pushEvent channelMapping rest)).
Proof.
  split; [|split; [|split; [|split; [|split; [|split]]]]].
  - intros Hn. destruct (substring_prefix n s Hn) as [rest [Hs Hl]].
    exists (String.substring 0 n s), rest.
    split; [|split]; [|exact Hs|exact Hl].
    unfold slice_to. apply Nat.leb_le in Hn. rewrite Hn. reflexivity.
  - intros Hn. unfold slice_to. subst n. rewrite Nat.leb_refl, substring_whole.
    reflexivity.
  - intros Hn. unfold slice_to. apply Nat.leb_gt in Hn. rewrite Hn. reflexivity.
  - intros Execute UnescapeString pushEvent channelMapping commit rest Hid Hn.
    cbn [range_commits]. rewrite Hid. unfold slice_to.
    apply Nat.leb_gt in Hn. rewrite Hn. reflexivity.
  - intros Execute pushEvent channelMapping commit rest Hid Hn.
    cbn [V1.range_commits]. rewrite Hid. unfold slice_to.
    apply Nat.leb_gt in Hn. rewrite Hn. reflexivity.
  - intros Execute UnescapeString pushEvent channelMapping commit rest Hid Hn.
    destruct (substring_prefix 7 s Hn) as [tail [Hs Hl]].
    exists (String.substring 0 7 s), tail.
    split; [exact Hs|]. split; [exact Hl|]. split.
    + intros H7. rewrite <- H7. apply substring_whole.
    + cbv zeta. cbn [range_commits]. rewrite Hid.
      rewrite (slice_to_long _ _ Hn), bind_must, bind_execute. reflexivity.
  - intros Execute pushEvent channelMapping commit rest Hid Hn.
    destruct (substring_prefix 8 s Hn) as [tail [Hs Hl]].
    exists (String.substring 0 8 s), tail.
    split; [exact Hs|]. split; [exact Hl|]. split.
    + intros H8. rewrite <- H8. apply substring_whole.
    + cbv zeta. cbn [V1.range_commits]. rewrite Hid.
      rewrite (slice_to_long _ _ Hn), bind_must.
      unfold mbind at 1, Run_bind at 1, V1.execute, prepend.
      match goal with |- (let '(_, _) := ?m in _) = _ => destruct m end.
      reflexivity.
Qed.

Lemma hash_shortening_witness :
  slice_to hash_a 7 = Some "1f3870b"
  /\ slice_to "1f3870b" 7 = Some "1f3870b"
  /\ slice_to "1f387" 7 = None
  /\ range_commits sample_Execute sample_Unescape push_short_id default_table
       [sample_commit "1f387"] = ([], inr Panic)
  /\ rendered (fst (range_commits sample_Execute sample_Unescape push_five default_table
                      [sample_commit hash_a]))
     = [(commitTemplate,
         OfCommit (CommitContext.mk "1f3870b" "fix &amp; tidy" (Author.mk "ada") 1 2 0))]
  /\ rendered (fst (V1.range_commits sample_Execute_v1 (sample_push_v1 []) default_table
                      [sample_commit_v1 hash_a]))
     = [(V1.commitTemplate,
         V1.OfCommit (V1.CommitContext.mk "1f3870be" "fix &amp; tidy" 0 0 0))].
Proof.
  split; [|split; [|split; [|split; [|split]]]].
  - destruct (proj1 (hash_shortening hash_a 7)) as [short [rest [Hs _]]].
    + simpl. lia.
    + rewrite Hs. vm_compute in Hs. congruence.
  - apply (proj1 (proj2 (hash_shortening "1f3870b" 7))). reflexivity.
  - apply (proj1 (proj2 (proj2 (hash_shortening "1f387" 7)))). simpl. lia.
  - apply (proj1 (proj2 (proj2 (proj2 (hash_shortening "1f387" 7))))).
    + reflexivity.
    + simpl. lia.
  - destruct (proj1 (proj2 (proj2 (proj2 (proj2 (proj2 (hash_shortening hash_a 0))))))
                sample_Execute sample_Unescape push_five default_table
                (sample_commit hash_a) [])
      as [short [tail [Hs [Hl [_ Hrun]]]]].
    + reflexivity.
    + simpl. lia.
    + cbv zeta in Hrun. rewrite Hrun.
      assert (Hshort : short = "1f3870b").
      { clear Hrun. destruct short as [|c1 [|c2 [|c3 [|c4 [|c5 [|c6 [|c7 [|c8 short]]]]]]]];
          try discriminate Hl.
        unfold hash_a in Hs.
        change (String c1 (String c2 (String c3 (String c4 (String c5 (String c6
                 (String c7 "")))))) +:+ tail)
          with (String c1 (String c2 (String c3 (String c4 (String c5 (String c6
                 (String c7 tail))))))) in Hs.
        injection Hs as H1 H2 H3 H4 H5 H6 H7 H8. subst. reflexivity. }
      subst short. vm_compute. reflexivity.
  - destruct (proj2 (proj2 (proj2 (proj2 (proj2 (proj2 (hash_shortening hash_a 0))))))
                sample_Execute_v1 (sample_push_v1 []) default_table
                (sample_commit_v1 hash_a) [])
      as [short [tail [Hs [Hl [_ Hrun]]]]].
    + reflexivity.
    + simpl. lia.
    + cbv zeta in Hrun. rewrite Hrun.
      assert (Hshort : short = "1f3870be").
      { clear Hrun.
        destruct short as [|c1 [|c2 [|c3 [|c4 [|c5 [|c6 [|c7 [|c8 [|c9 short]]]]]]]]];
          try discriminate Hl.
        unfold hash_a in Hs.
        change (String c1 (String c2 (String c3 (String c4 (String c5 (String c6
                 (String c7 (String c8 ""))))))) +:+ tail)
          with (String c1 (String c2 (String c3 (String c4 (String c5 (String c6
                 (String c7 (String c8 tail)))))))) in Hs.
        injection Hs as H1 H2 H3 H4 H5 H6 H7 H8 H9. subst. reflexivity. }
      subst short. vm_compute. reflexivity.
Defined.

(** C4 (as stated) fails: on a hash of five characters the slice
    expression panics; the request of a push that carries such a commit
    ends in a panic, after its summary line has been delivered. *)
Lemma short_hash_panics :
  slice_to "1f387" 7 = None
  /\ serve sample_Execute sample_Unescape default_table (push_request push_short_id)
     = ([Executed (pushCompareTemplate,
                   OfPush (shortened (PushEvent.set_Branch push_short_id "feature")));
         Privmsg "#default" "push notification"],
        Panicked).
Proof. split; vm_compute; reflexivity. Qed.

(** ** The channels joined and the channels written to *)

Lemma in_values_concat (m : gmap string (list string)) (channel : string) :
  In channel (concat (map snd (map_to_list m)))
  <-> exists key channels, m !! key = Some channels /\ In channel channels.
Proof.
  rewrite in_concat. split.
  - intros [l [Hl Hc]]. apply in_map_iff in Hl. destruct Hl as [[k l'] [Heq Hin]].
    simpl in Heq. subst l'. exists k, l. split; [|exact Hc].
    apply elem_of_map_to_list, list_elem_of_In. exact Hin.
  - intros [k [l [Hk Hc]]]. exists l. split; [|exact Hc].
    apply in_map_iff. exists (k, l). split; [reflexivity|].
    apply list_elem_of_In, elem_of_map_to_list. exact Hk.
Qed.

(** X1: [contains] answers whether the entry is a key of the map: the
    order in which the loop meets the keys does not matter. *)
Theorem contains_iff_key (mapping : gmap string (list string)) (entry : string) :
  (contains mapping entry = true <-> entry ∈ dom mapping)
  /\ (contains mapping entry = false <-> mapping !! entry = None).
Proof.
  split.
  - rewrite elem_of_dom. unfold contains. rewrite existsb_exists. split.
    + intros [[k l] [Hin Heq]]. apply String.eqb_eq in Heq. simpl in Heq. subst k.
      exists l. apply elem_of_map_to_list, list_elem_of_In. exact Hin.
    + intros [l Hl]. exists (entry, l). split; [|apply String.eqb_refl].
      apply list_elem_of_In, elem_of_map_to_list. exact Hl.
  - apply contains_absent.
Qed.

(** X2: the names [getAllChannelNames] returns are the default channel,
    the channels of every group mapping and the channels of every explicit
    mapping, and nothing else; the default channel comes first. *)
Theorem getAllChannelNames_members (channelMapping : Mapping) (channel : string) :
  (In channel (getAllChannelNames channelMapping)
   <-> channel = DefaultChannel channelMapping
       \/ (exists key channels,
              GroupMappings channelMapping !! key = Some channels /\ In channel channels)
       \/ (exists key channels,
              ExplicitMappings channelMapping !! key = Some channels
              /\ In channel channels))
  /\ head (getAllChannelNames channelMapping) = Some (DefaultChannel channelMapping).
Proof.
  split; [|reflexivity].
  unfold getAllChannelNames. rewrite !in_app_iff, !in_values_concat.
  cbn [In]. intuition.
Qed.

Lemma channelNames_joined (projectName namespace : string) (channelMapping : Mapping)
    (channel : string) :
  In channel (channelNames projectName namespace channelMapping) ->
  In channel (getAllChannelNames channelMapping).
Proof.
  rewrite channelNames_resolve. unfold resolve, getAllChannelNames.
  rewrite !in_app_iff, !in_values_concat.
  destruct (ExplicitMappings channelMapping !! _) as [l|] eqn:He.
  - intros Hc. right. right. eauto.
  - destruct (GroupMappings channelMapping !! namespace) as [l|] eqn:Hg.
    + intros Hc. right. left. eauto.
    + intros Hc. left. exact Hc.
Qed.

(** X3: the callback on "001" joins every channel that [sendMessage] can
    ever write to, for any project; on any other event code no channel is
    joined. *)
Theorem joined_before_written (channelMapping : Mapping) :
  (forall projectName namespace channel,
      In channel (channelNames projectName namespace channelMapping) ->
      In channel (RegisterHandlers channelMapping "001"))
  /\ (forall code, code <> "001" -> RegisterHandlers channelMapping code = []).
Proof.
  split.
  - intros projectName namespace channel Hc.
    change (RegisterHandlers channelMapping "001")
      with (getAllChannelNames channelMapping).
    eapply channelNames_joined. exact Hc.
  - intros code Hcode. unfold RegisterHandlers.
    apply String.eqb_neq in Hcode. rewrite Hcode.
    destruct (String.eqb code "366"); reflexivity.
Qed.

Lemma joined_before_written_witness :
  In "#ops" (RegisterHandlers sample_table "001")
  /\ RegisterHandlers sample_table "366" = [].
Proof.
  split.
  - apply (proj1 (joined_before_written sample_table) "relay" "infra" "#ops").
    vm_compute. right. left. reflexivity.
  - apply (proj2 (joined_before_written sample_table) "366"). discriminate.
Defined.

(** ** Where the deliveries of a request go *)

Section Ensures.

Context {R : Type}.
Variable P : string -> Prop.

Lemma sent_to_app (t1 t2 : list (Effect R)) :
  sent_to (t1 ++ t2) = sent_to t1 ++ sent_to t2.
Proof.
  unfold sent_to, delivered. induction t1 as [|[r|c m] t1 IH]; simpl.
  - reflexivity.
  - exact IH.
  - f_equal. exact IH.
Qed.

Lemma sent_to_privmsgs (message : string) (channels : list string) :
  sent_to (map (fun channelName => @Privmsg R channelName message) channels) = channels.
Proof.
  unfold sent_to, delivered. induction channels as [|c l IH]; simpl.
  - reflexivity.
  - f_equal. exact IH.
Qed.

Lemma ensures_ret {A : Type} (Q : A -> Prop) (a : A) :
  Q a -> ensures P Q (mret a : Run R A).
Proof.
  intros Ha. split.
  - intros c [].
  - intros a' Heq. injection Heq as <-. exact Ha.
Qed.

Lemma ensures_stop {A : Type} (Q : A -> Prop) (s : Stop) :
  ensures P Q (stop s : Run R A).
Proof. split; [intros c []|intros a Heq; discriminate]. Qed.

Lemma ensures_must {A : Type} (Q : A -> Prop) (o : option A) :
  (forall a, o = Some a -> Q a) -> ensures P Q (must o : Run R A).
Proof.
  intros H. destruct o as [a|]; [apply ensures_ret; auto|apply ensures_stop].
Qed.

Lemma ensures_send (Q : unit -> Prop) (message projectName namespace : string)
    (channelMapping : Mapping) :
  (forall channel,
      In channel (channelNames projectName namespace channelMapping) -> P channel) ->
  Q tt ->
  ensures P Q (sendMessage message projectName namespace channelMapping : Run R unit).
Proof.
  intros H Hq. split.
  - intros c. unfold sendMessage. cbn [fst]. rewrite sent_to_privmsgs. apply H.
  - intros [] _. exact Hq.
Qed.

Lemma ensures_bind {A B : Type} (Q' : A -> Prop) (Q : B -> Prop)
    (m : Run R A) (f : A -> Run R B) :
  ensures P Q' m -> (forall a, Q' a -> ensures P Q (f a)) -> ensures P Q (m ≫= f).
Proof.
  intros [Hm Hq] Hf. unfold mbind, Run_bind. destruct m as [t1 [a|s]].
  - destruct (Hf a (Hq a eq_refl)) as [Hfa Hqa].
    destruct (f a) as [t2 r]. split.
    + intros c. cbn [fst] in *. rewrite sent_to_app, in_app_iff.
      intros [H|H]; [apply Hm|apply Hfa]; exact H.
    + exact Hqa.
  - split; [exact Hm|intros b Heq; discriminate].
Qed.

Lemma finish_trace (m : Run R unit) : fst (finish m) = fst m.
Proof. destruct m as [t [[]|[]]]; reflexivity. Qed.

End Ensures.

Section EnsuresHandler.

Variable Execute : Template -> Data -> string * bool.
Variable UnescapeString : string -> string.
Variable channelMapping : Mapping.
Variable P : string -> Prop.

Let any {A : Type} (a : A) : Prop := True.

Lemma ensures_execute (Q : string * bool -> Prop) (t : Template) (d : Data) :
  Q (Execute t d) -> ensures P Q (execute Execute t d).
Proof.
  intros Hq. split.
  - intros c [].
  - intros a Heq. injection Heq as <-. exact Hq.
Qed.

Lemma ensures_line (t : Template) (d : Data) (projectName namespace : string) :
  (forall channel,
      In channel (channelNames projectName namespace channelMapping) -> P channel) ->
  ensures P any
    (out ← execute Execute t d;
     sendMessage (fst out) projectName namespace channelMapping).
Proof.
  intros H. apply ensures_bind with (Q' := any).
  - apply ensures_execute. exact I.
  - intros out _. apply ensures_send; [exact H|exact I].
Qed.

Lemma ensures_range_commits (pushEvent : PushEvent.t) (commits : list Commit.t) :
  (forall channel,
      In channel (channelNames (Project.Name (PushEvent.Project pushEvent))
                    (Project.Namespace (PushEvent.Project pushEvent)) channelMapping) ->
      P channel) ->
  ensures P any (range_commits Execute UnescapeString pushEvent channelMapping commits).
Proof.
  intros H. induction commits as [|commit rest IH]; cbn [range_commits].
  - apply ensures_ret. exact I.
  - apply ensures_bind with (Q' := any); [apply ensures_must; intros; exact I|].
    intros shortID _.
    apply ensures_bind with (Q' := any); [apply ensures_execute; exact I|].
    intros out _. destruct (snd out : bool); [apply ensures_stop|].
    apply ensures_bind with (Q' := any); [apply ensures_send; [exact H|exact I]|].
    intros _ _. exact IH.
Qed.

Lemma ensures_pushHook (body : Body.t) :
  (forall e, Body.PushEvent body = Some e ->
     forall channel,
       In channel (channelNames (Project.Name (PushEvent.Project e))
                     (Project.Namespace (PushEvent.Project e)) channelMapping) ->
       P channel) ->
  ensures P any (pushHook Execute UnescapeString channelMapping body).
Proof.
  intros H. unfold pushHook.
  destruct (Body.PushEvent body) as [e|]; [|apply ensures_stop].
  specialize (H e eq_refl).
  apply ensures_bind with (Q' := any); [apply ensures_must; intros; exact I|].
  intros branch _.
  cbn [PushEvent.set_Branch PushEvent.Project PushEvent.AfterCommit
       PushEvent.BeforeCommit PushEvent.TotalCommits].
  destruct (String.eqb (PushEvent.AfterCommit e) NullCommit);
    [apply ensures_line; exact H|].
  apply ensures_bind with (Q' := any).
  { destruct (String.eqb (PushEvent.BeforeCommit e) NullCommit);
      [apply ensures_line; exact H|apply ensures_ret; exact I]. }
  intros _ _. destruct (0 <? PushEvent.TotalCommits e); [|apply ensures_ret; exact I].
  apply ensures_bind
    with (Q' := fun pt => PushEvent.Project (fst pt) = PushEvent.Project e).
  { destruct (String.eqb (PushEvent.BeforeCommit e) NullCommit).
    - apply ensures_bind with (Q' := any); [apply ensures_execute; exact I|].
      intros out _. apply ensures_ret. reflexivity.
    - apply ensures_bind with (Q' := any); [apply ensures_must; intros; exact I|].
      intros before _.
      apply ensures_bind with (Q' := any); [apply ensures_must; intros; exact I|].
      intros after _.
      apply ensures_bind with (Q' := any); [apply ensures_execute; exact I|].
      intros out _. apply ensures_ret. reflexivity. }
  intros [pushEvent text] Hp. cbn [fst] in Hp.
  apply ensures_bind with (Q' := any); [apply ensures_send; [exact H|exact I]|].
  intros _ _.
  apply ensures_bind
    with (Q' := fun pushEvent0 => PushEvent.Project pushEvent0 = PushEvent.Project e).
  { destruct (3 <? PushEvent.TotalCommits pushEvent).
    - apply ensures_bind with (Q' := any); [apply ensures_must; intros; exact I|].
      intros commits _. apply ensures_ret. exact Hp.
    - apply ensures_ret. exact Hp. }
  intros pushEvent0 Hp0.
  apply ensures_bind with (Q' := any).
  { apply ensures_range_commits. rewrite Hp0. exact H. }
  intros _ _. destruct (3 <? PushEvent.TotalCommits pushEvent0).
  - apply ensures_send; [exact H|exact I].
  - apply ensures_ret. exact I.
Qed.

Lemma ensures_pipelineHook (body : Body.t) :
  (forall e, Body.PipelineEvent body = Some e ->
     forall channel,
       In channel (channelNames (Project.Name (PipelineEvent.Project e))
                     (Project.Namespace (PipelineEvent.Project e)) channelMapping) ->
       P channel) ->
  ensures P any (pipelineHook Execute channelMapping body).
Proof.
  intros H. unfold pipelineHook.
  destruct (Body.PipelineEvent body) as [e|]; [|apply ensures_stop].
  specialize (H e eq_refl).
  destruct (String.eqb _ "pending"); [apply ensures_stop|].
  apply ensures_bind with (Q' := any); [apply ensures_must; intros; exact I|].
  intros commit _.
  cbn [PipelineEvent.set_Pipeline PipelineEvent.Pipeline PipelineEvent.Project
       Pipeline.set_Commit Pipeline.Status].
  destruct (String.eqb _ "running"); [apply ensures_line; exact H|].
  destruct (String.eqb _ "success" || String.eqb _ "failed");
    [apply ensures_line; exact H|apply ensures_ret; exact I].
Qed.

Lemma ensures_issueHook (body : Body.t) :
  (forall e, Body.IssueEvent body = Some e ->
     forall channel,
       In channel (channelNames (Project.Name (IssueEvent.Project e))
                     (Project.Namespace (IssueEvent.Project e)) channelMapping) ->
       P channel) ->
  ensures P any (issueHook Execute channelMapping body).
Proof.
  intros H. unfold issueHook.
  destruct (Body.IssueEvent body) as [e|]; [|apply ensures_stop].
  apply ensures_line. exact (H e eq_refl).
Qed.

Lemma ensures_mergeRequestHook (body : Body.t) :
  (forall e, Body.MergeEvent body = Some e ->
     forall channel,
       In channel (channelNames (Project.Name (MergeEvent.Project e))
                     (Project.Namespace (MergeEvent.Project e)) channelMapping) ->
       P channel) ->
  ensures P any (mergeRequestHook Execute channelMapping body).
Proof.
  intros H. unfold mergeRequestHook.
  destruct (Body.MergeEvent body) as [e|]; [|apply ensures_stop].
  apply ensures_line. exact (H e eq_refl).
Qed.

Lemma ensures_jobHook (body : Body.t) :
  (forall projectName namespace channel,
      In channel (channelNames projectName namespace channelMapping) -> P channel) ->
  ensures P any (jobHook Execute channelMapping body).
Proof.
  intros H. unfold jobHook.
  destruct (Body.JobEvent body) as [e|]; [|apply ensures_stop].
  destruct (negb _ && negb _); [apply ensures_stop|].
  apply ensures_bind with (Q' := any); [apply ensures_must; intros; exact I|].
  intros commit _.
  apply ensures_bind with (Q' := any); [apply ensures_must; intros; exact I|].
  intros path _.
  apply ensures_bind with (Q' := any); [apply ensures_must; intros; exact I|].
  intros namespace _. apply ensures_line. apply H.
Qed.

End EnsuresHandler.

(** X4: whatever the request (any event type, any body, decoded or not,
    well formed or not, ending in a return, an exit or a panic), every
    message the handler delivers goes to a channel that the callback on
    "001" has joined. *)
Theorem handler_writes_to_joined
    (Execute : Template -> Data -> string * bool) (UnescapeString : string -> string)
    (channelMapping : Mapping) (req : Request.t) (channel : string) :
  In channel (sent_to (fst (serve Execute UnescapeString channelMapping req))) ->
  In channel (RegisterHandlers channelMapping "001").
Proof.
  unfold serve. rewrite finish_trace.
  change (RegisterHandlers channelMapping "001") with (getAllChannelNames channelMapping).
  set (P := fun c => In c (getAllChannelNames channelMapping)).
  assert (HP : forall projectName namespace c,
             In c (channelNames projectName namespace channelMapping) -> P c)
    by (intros projectName namespace c; apply channelNames_joined).
  assert (H : ensures P (fun _ => True)
                (CreateFunctionNotifyFunction Execute UnescapeString channelMapping req)).
  { unfold CreateFunctionNotifyFunction.
    apply ensures_bind with (Q' := fun _ => True);
      [apply ensures_must; intros; exact I|].
    intros eventType _.
    destruct (String.eqb eventType "Pipeline Hook");
      [apply ensures_pipelineHook; intros; eapply HP; eassumption|].
    destruct (String.eqb eventType "Job Hook"); [apply ensures_jobHook; exact HP|].
    destruct (String.eqb eventType "Merge Request Hook"
              || String.eqb eventType "Merge Request Event");
      [apply ensures_mergeRequestHook; intros; eapply HP; eassumption|].
    destruct (String.eqb eventType "Issue Hook" || String.eqb eventType "Issue Event");
      [apply ensures_issueHook; intros; eapply HP; eassumption|].
    destruct (String.eqb eventType "Push Hook" || String.eqb eventType "Push Event");
      [apply ensures_pushHook; intros; eapply HP; eassumption|].
    apply ensures_ret. exact I. }
  exact (proj1 H channel).
Qed.

Lemma handler_writes_to_joined_witness :
  In "#bridge" (RegisterHandlers sample_table "001").
Proof.
  apply (handler_writes_to_joined sample_Execute sample_Unescape sample_table
           (push_request push_five) "#bridge").
  vm_compute. left. reflexivity.
Defined.

(** X5: every message of a push request goes to a channel of the project
    of the event: all the lines of one push (branch line, summary, commit
    lines, "more commits") are routed alike, wherever the request stops. *)
Theorem push_lines_routed_alike
    (Execute : Template -> Data -> string * bool) (UnescapeString : string -> string)
    (channelMapping : Mapping) (eventType : string) (others : list string)
    (body : Body.t) (e : PushEvent.t) (channel : string) :
  push_label eventType = true ->
  Body.PushEvent body = Some e ->
  In channel (sent_to (fst (serve Execute UnescapeString channelMapping
                              (Request.mk (eventType :: others) body)))) ->
  In channel (channelNames (Project.Name (PushEvent.Project e))
                (Project.Namespace (PushEvent.Project e)) channelMapping).
Proof.
  intros Hlabel Hdecode. unfold serve.
  rewrite finish_trace, dispatch_push by exact Hlabel.
  apply (ensures_pushHook Execute UnescapeString channelMapping
           (fun c => In c (channelNames (Project.Name (PushEvent.Project e))
                             (Project.Namespace (PushEvent.Project e)) channelMapping))).
  intros e' He' c Hc. rewrite Hdecode in He'. injection He' as <-. exact Hc.
Qed.

Lemma push_lines_routed_alike_witness :
  In "#bridge" (channelNames "bridge" "infra" sample_table).
Proof.
  apply (push_lines_routed_alike sample_Execute sample_Unescape sample_table
           "Push Hook" [] (push_body push_short_id) push_short_id "#bridge").
  - reflexivity.
  - reflexivity.
  - vm_compute. left. reflexivity.
Defined.

(** ** Splitting a string *)

Lemma Split_not_nil (s : string) (sep : ascii) : strings.Split s sep <> [].
Proof.
  destruct s as [|c rest]; cbn [strings.Split]; [discriminate|].
  destruct (Ascii.eqb c sep); [discriminate|].
  destruct (strings.Split rest sep); discriminate.
Qed.

Lemma Split_length (s : string) (sep : ascii) :
  length (strings.Split s sep) = S (occurrences sep s).
Proof.
  induction s as [|c rest IH]; cbn [strings.Split occurrences]; [reflexivity|].
  destruct (Ascii.eqb c sep).
  - cbn [length]. rewrite IH. reflexivity.
  - destruct (strings.Split rest sep) as [|piece pieces] eqn:Hs.
    + exfalso. exact (Split_not_nil rest sep Hs).
    + cbn [length] in *. exact IH.
Qed.

(** X6: [strings.Split] as the handler uses it: the pieces are one more
    than the separators in the string, no piece holds a separator, and
    joining the pieces with the separator gives the string back. *)
Theorem Split_pieces (s : string) (sep : ascii) :
  length (strings.Split s sep) = S (occurrences sep s)
  /\ Forall (fun piece => occurrences sep piece = 0%nat) (strings.Split s sep)
  /\ strings.Join (strings.Split s sep) (String sep "") = s.
Proof.
  split; [apply Split_length|]. split.
  - induction s as [|c rest IH]; cbn [strings.Split].
    + repeat constructor.
    + destruct (Ascii.eqb c sep) eqn:Hc.
      * constructor; [reflexivity|exact IH].
      * destruct (strings.Split rest sep) as [|piece pieces].
        -- constructor; [|constructor]. cbn [occurrences]. rewrite Hc. reflexivity.
        -- inversion IH as [|? ? Hp Hps]; subst. constructor; [|exact Hps].
           cbn [occurrences]. rewrite Hc. exact Hp.
  - induction s as [|c rest IH]; cbn [strings.Split]; [reflexivity|].
    destruct (Ascii.eqb c sep) eqn:Hc.
    + apply Ascii.eqb_eq in Hc. subst c.
      destruct (strings.Split rest sep) as [|piece pieces] eqn:Hs.
      * exfalso. exact (Split_not_nil rest sep Hs).
      * change (strings.Join ("" :: piece :: pieces) (String sep ""))
          with (String sep (strings.Join (piece :: pieces) (String sep ""))).
        rewrite IH. reflexivity.
    + destruct (strings.Split rest sep) as [|piece pieces] eqn:Hs.
      * exfalso. exact (Split_not_nil rest sep Hs).
      * destruct pieces as [|piece' pieces].
        -- cbn [strings.Join] in *. rewrite IH. reflexivity.
        -- change (strings.Join (String c piece :: piece' :: pieces) (String sep ""))
             with (String c (strings.Join (piece :: piece' :: pieces) (String sep ""))).
           rewrite IH. reflexivity.
Qed.

(** ** The edges of the switch *)

Section Edges.

Variable Execute : Template -> Data -> string * bool.
Variable UnescapeString : string -> string.
Variable channelMapping : Mapping.
Variables (others : list string) (body : Body.t).

(** X7: a request whose event type is none of the eight labels of the
    switch does nothing (the body is not even decoded); a request that
    has no [X-Gitlab-Event] header at all panics on the index
    expression, before anything else. *)
Theorem unknown_event_ignored :
  (forall eventType,
      ~ In eventType known_labels ->
      serve Execute UnescapeString channelMapping (Request.mk (eventType :: others) body)
      = ([], Completed))
  /\ serve Execute UnescapeString channelMapping (Request.mk [] body) = ([], Panicked).
Proof.
  split; [|reflexivity].
  intros eventType Hnot. unfold known_labels in Hnot. cbn [In] in Hnot.
  unfold serve, CreateFunctionNotifyFunction.
  change (index (Request.Header (Request.mk (?x :: others) body)) 0) with (Some x).
  rewrite bind_must.
  repeat match goal with
         | |- context [String.eqb eventType ?l] =>
             replace (String.eqb eventType l) with false
               by (symmetry; apply String.eqb_neq; intros ->; intuition)
         end.
  reflexivity.
Qed.

(** X8: a push event whose ref has fewer than two slashes (fewer than
    three components) panics on the index expression: nothing is
    rendered, nothing is delivered. *)
Theorem push_short_ref_panics (eventType : string) (e : PushEvent.t) :
  push_label eventType = true ->
  Body.PushEvent body = Some e ->
  (occurrences "/" (PushEvent.Branch e) < 2)%nat ->
  serve Execute UnescapeString channelMapping (Request.mk (eventType :: others) body)
  = ([], Panicked).
Proof.
  intros Hlabel Hdecode Hshort. unfold serve. rewrite dispatch_push by exact Hlabel.
  unfold pushHook. rewrite Hdecode.
  replace (index (strings.Split (PushEvent.Branch e) "/") 2) with (@None string).
  - reflexivity.
  - symmetry. unfold index. apply lookup_ge_None. rewrite Split_length. lia.
Qed.

End Edges.

Lemma unknown_event_ignored_witness :
  serve sample_Execute sample_Unescape sample_table
    (Request.mk ["Tag Push Hook"] (push_body push_five))
  = ([], Completed).
Proof.
  apply (proj1 (unknown_event_ignored sample_Execute sample_Unescape sample_table []
                  (push_body push_five)) "Tag Push Hook").
  simpl. intuition discriminate.
Defined.

Lemma push_short_ref_panics_witness :
  serve sample_Execute sample_Unescape sample_table
    (push_request (PushEvent.set_Branch push_five "refs/main"))
  = ([], Panicked).
Proof.
  apply (push_short_ref_panics sample_Execute sample_Unescape sample_table []
           (push_body (PushEvent.set_Branch push_five "refs/main")) "Push Hook"
           (PushEvent.set_Branch push_five "refs/main")).
  - reflexivity.
  - reflexivity.
  - simpl. lia.
Defined.

(** ** More of the push case *)

Section PushMore.

Variable Execute : Template -> Data -> string * bool.
Variable UnescapeString : string -> string.
Variable channelMapping : Mapping.
Variables (eventType : string) (others : list string) (body : Body.t).
Variables (e : PushEvent.t) (branch : string).

Let req : Request.t := Request.mk (eventType :: others) body.
Let e1 : PushEvent.t := PushEvent.set_Branch e branch.

(** X9: a push event whose after-hash is the all-zero hash produces the
    branch-delete line and nothing else, whatever its count, its commits
    and its before-hash. *)
Theorem push_deleted_single_line :
  push_label eventType = true ->
  Body.PushEvent body = Some e ->
  index (strings.Split (PushEvent.Branch e) "/") 2 = Some branch ->
  PushEvent.AfterCommit e = NullCommit ->
  serve Execute UnescapeString channelMapping req
  = (branch_delete_line Execute channelMapping e1, Completed).
Proof.
  intros Hlabel Hdecode Hbranch Hafter. unfold serve, req.
  rewrite dispatch_push by exact Hlabel.
  rewrite (pushHook_deleted Execute UnescapeString channelMapping body e branch
             Hdecode Hbranch); [reflexivity|].
  rewrite Hafter. apply String.eqb_refl.
Qed.



(** X12: the commit loop stops at the first commit that does not go
    through.  When the commit template returns an error, the handler
    returns: the commits before it have their lines, the failing one is
    rendered but not delivered, and nothing that follows the loop is run.
    When the id of a commit has fewer than 7 characters, the handler
    panics after the lines of the commits before it. *)
Theorem commit_loop_stops (good : list Commit.t) (bad : Commit.t) (rest : list Commit.t) :
  Forall (renders Execute UnescapeString) good ->
  ((7 <= String.length (Commit.Id bad))%nat ->
   snd (Execute commitTemplate (OfCommit (context_of UnescapeString bad))) = true ->
   forall (A : Type) (after : unit -> Run (Template * Data) A),
     range_commits Execute UnescapeString e channelMapping (good ++ bad :: rest) ≫= after
     = (flat_map (commit_line Execute UnescapeString channelMapping
                    (PushEvent.Project e)) good
        ++ [Executed (commitTemplate, OfCommit (context_of UnescapeString bad))],
        inr Return))
  /\ ((String.length (Commit.Id bad) < 7)%nat ->
      forall (A : Type) (after : unit -> Run (Template * Data) A),
        range_commits Execute UnescapeString e channelMapping (good ++ bad :: rest) ≫= after
        = (flat_map (commit_line Execute UnescapeString channelMapping
                       (PushEvent.Project e)) good,
           inr Panic)).
Proof.
  intros Hgood. split.
  - intros Hid Herr A after.
    assert (Hloop : range_commits Execute UnescapeString e channelMapping
                      (good ++ bad :: rest)
                    = (flat_map (commit_line Execute UnescapeString channelMapping
                                   (PushEvent.Project e)) good
                       ++ [Executed (commitTemplate,
                                     OfCommit (context_of UnescapeString bad))],
                       inr Return)).
    { induction Hgood as [|commit good' [Hc He] _ IH].
      - cbn [app range_commits flat_map].
        rewrite (slice_to_long _ _ Hid), bind_must, bind_execute.
        fold (context_of UnescapeString bad). rewrite Herr. reflexivity.
      - cbn [app range_commits flat_map].
        rewrite (slice_to_long _ _ Hc), bind_must, bind_execute.
        fold (context_of UnescapeString commit). rewrite He.
        rewrite bind_send, IH. unfold prepend, commit_line, line, deliveries.
        cbn [fst snd app]. rewrite <- app_assoc. reflexivity. }
    rewrite Hloop. reflexivity.
  - intros Hid A after.
    assert (Hloop : range_commits Execute UnescapeString e channelMapping
                      (good ++ bad :: rest)
                    = (flat_map (commit_line Execute UnescapeString channelMapping
                                   (PushEvent.Project e)) good,
                       inr Panic)).
    { induction Hgood as [|commit good' [Hc He] _ IH].
      - cbn [app range_commits flat_map].
        rewrite (slice_to_short _ _ Hid). reflexivity.
      - cbn [app range_commits flat_map].
        rewrite (slice_to_long _ _ Hc), bind_must, bind_execute.
        fold (context_of UnescapeString commit). rewrite He.
        rewrite bind_send, IH. unfold prepend, commit_line, line, deliveries.
        cbn [fst snd app]. reflexivity. }
    rewrite Hloop. reflexivity.
Qed.

End PushMore.

Lemma push_deleted_single_line_witness :
  let run := serve sample_Execute sample_Unescape sample_table
               (push_request push_deleted_with_commits) in
  templates (fst run) = [branchDeleteTemplate]
  /\ delivered (fst run) = [("#bridge", "branch delete notification")]
  /\ snd run = Completed.
Proof.
  cbv zeta. unfold push_request.
  rewrite (push_deleted_single_line sample_Execute sample_Unescape sample_table
             "Push Hook" [] (push_body push_deleted_with_commits)
             push_deleted_with_commits "feature"
             eq_refl eq_refl eq_refl eq_refl).
  vm_compute. repeat split.
Defined.



Lemma commit_loop_stops_witness :
  finish (range_commits failing_Execute sample_Unescape push_five default_table
            five_commits ≫= fun _ => mret tt)
  = ([ Executed (commitTemplate,
                 OfCommit (context_of sample_Unescape
                             (sample_commit "a94a8fe5ccb19ba61c4c0873d391e987982fbbd3")));
       Privmsg "#default" "commit notification";
       Executed (commitTemplate,
                 OfCommit (context_of sample_Unescape
                             (sample_commit "b6589fc6ab0dc82cf12099d1c2d40ab994e8410c"))) ],
     Completed)
  /\ finish (range_commits sample_Execute sample_Unescape push_short_id default_table
               [sample_commit "1f387"] ≫= fun _ => mret tt)
     = ([], Panicked).
Proof.
  split.
  - change five_commits
      with ([sample_commit "a94a8fe5ccb19ba61c4c0873d391e987982fbbd3"]
            ++ sample_commit "b6589fc6ab0dc82cf12099d1c2d40ab994e8410c"
            :: drop 2 five_commits).
    rewrite (proj1 (commit_loop_stops failing_Execute sample_Unescape default_table
                      push_five
                      [sample_commit "a94a8fe5ccb19ba61c4c0873d391e987982fbbd3"]
                      (sample_commit "b6589fc6ab0dc82cf12099d1c2d40ab994e8410c")
                      (drop 2 five_commits)
                      ltac:(repeat constructor; simpl; lia))).
    + vm_compute. reflexivity.
    + simpl. lia.
    + reflexivity.
  - change [sample_commit "1f387"] with ([] ++ sample_commit "1f387" :: []).
    rewrite (proj2 (commit_loop_stops sample_Execute sample_Unescape default_table
                      push_short_id [] (sample_commit "1f387") []
                      ltac:(constructor))).
    + reflexivity.
    + simpl. lia.
Defined.

(** ** The pipeline and job cases *)

Lemma Split_app_sep (a b : string) (sep : ascii) :
  occurrences sep a = 0%nat ->
  strings.Split (a +:+ String sep b) sep = a :: strings.Split b sep.
Proof.
  induction a as [|c a IH]; cbn [occurrences]; intros Ha.
  - change ("" +:+ String sep b) with (String sep b).
    cbn [strings.Split]. rewrite Ascii.eqb_refl. reflexivity.
  - change (String c a +:+ String sep b) with (String c (a +:+ String sep b)).
    cbn [strings.Split]. destruct (Ascii.eqb c sep); [discriminate|].
    rewrite IH by exact Ha. reflexivity.
Qed.

Lemma Split_head_app (a b : string) (sep : ascii) :
  occurrences sep a = 0%nat ->
  head (strings.Split (a +:+ b) sep)
  = Some (a +:+ default "" (head (strings.Split b sep))).
Proof.
  induction a as [|c a IH]; cbn [occurrences]; intros Ha.
  - change ("" +:+ b) with b.
    destruct (strings.Split b sep) as [|piece pieces] eqn:Hs; [|reflexivity].
    exfalso. exact (Split_not_nil b sep Hs).
  - change (String c a +:+ b) with (String c (a +:+ b)).
    cbn [strings.Split]. destruct (Ascii.eqb c sep); [discriminate|].
    specialize (IH Ha).
    destruct (strings.Split (a +:+ b) sep) as [|piece pieces]; [discriminate|].
    cbn [head] in *. injection IH as ->. reflexivity.
Qed.

(** The namespace of a remote of the form [host:namespace/rest]. *)
Lemma namespace_of_url (host namespace rest : string) :
  occurrences ":" host = 0%nat ->
  occurrences ":" namespace = 0%nat ->
  occurrences "/" namespace = 0%nat ->
  exists path,
    index (strings.Split (host +:+ ":" +:+ namespace +:+ "/" +:+ rest) ":") 1 = Some path
    /\ index (strings.Split path "/") 0 = Some namespace.
Proof.
  intros Hhost Hcolon Hslash.
  change (host +:+ ":" +:+ namespace +:+ "/" +:+ rest)
    with (host +:+ String ":" (namespace +:+ String "/" rest)).
  rewrite (Split_app_sep _ _ _ Hhost).
  pose proof (Split_head_app namespace (String "/" rest) ":" Hcolon) as Hhead.
  cbn [strings.Split] in Hhead. change (Ascii.eqb "/" ":") with false in Hhead.
  destruct (strings.Split rest ":") as [|piece pieces] eqn:Hs;
    [exfalso; exact (Split_not_nil rest ":" Hs)|].
  cbn [head default] in Hhead.
  destruct (strings.Split (namespace +:+ String "/" rest) ":") as [|path paths];
    [discriminate|].
  cbn [head] in Hhead. injection Hhead as ->.
  eexists. split; [reflexivity|].
  rewrite (Split_app_sep _ _ _ Hslash). reflexivity.
Qed.

Section PipelineAndJob.

Variable Execute : Template -> Data -> string * bool.
Variable UnescapeString : string -> string.
Variable channelMapping : Mapping.
Variables (others : list string) (body : Body.t).

(** X13: a pipeline event whose status is running, success or failed and
    whose hash has at least 7 characters produces one line: the hash cut
    to 7 characters, the status replaced by its phrase, rendered with the
    create template when running and with the complete template
    otherwise, sent to the channels of the project. *)
Theorem pipeline_line (pipelineEvent : PipelineEvent.t) :
  Body.PipelineEvent body = Some pipelineEvent ->
  In (Pipeline.Status (PipelineEvent.Pipeline pipelineEvent))
     ["running"; "success"; "failed"] ->
  (7 <= String.length (Pipeline.Commit (PipelineEvent.Pipeline pipelineEvent)))%nat ->
  serve Execute UnescapeString channelMapping (Request.mk ("Pipeline Hook" :: others) body)
  = (line Execute channelMapping
       (if String.eqb (Pipeline.Status (PipelineEvent.Pipeline pipelineEvent)) "running"
        then pipelineCreateTemplate else pipelineCompleteTemplate)
       (OfPipeline (normal_pipeline pipelineEvent))
       (PipelineEvent.Project pipelineEvent),
     Completed).
Proof.
  intros Hdecode Hstatus Hcommit. unfold serve. rewrite dispatch_pipeline.
  unfold pipelineHook. rewrite Hdecode.
  destruct pipelineEvent as [[id commit status duration] project].
  cbn [PipelineEvent.Pipeline Pipeline.Status Pipeline.Commit In] in *.
  destruct Hstatus as [Hs|[Hs|[Hs|[]]]]; subst status;
    simpl (String.eqb _ _); cbn [orb];
    rewrite (slice_to_long _ _ Hcommit), bind_must;
    cbn [PipelineEvent.set_Pipeline PipelineEvent.Pipeline PipelineEvent.Project
         Pipeline.set_Commit Pipeline.set_Status Pipeline.Status Pipeline.Id
         Pipeline.Commit Pipeline.Duration];
    simpl (String.eqb _ _); cbn [orb];
    rewrite bind_execute, <- (bind_ret tt (fun _ => sendMessage _ _ _ _));
    reflexivity.
Qed.

(** X14: a pipeline event whose status is not "pending" and whose hash
    has fewer than 7 characters panics before anything is rendered, even
    when its status is one for which no message would be sent. *)
Theorem pipeline_short_hash_panics (pipelineEvent : PipelineEvent.t) :
  Body.PipelineEvent body = Some pipelineEvent ->
  Pipeline.Status (PipelineEvent.Pipeline pipelineEvent) <> "pending" ->
  (String.length (Pipeline.Commit (PipelineEvent.Pipeline pipelineEvent)) < 7)%nat ->
  serve Execute UnescapeString channelMapping (Request.mk ("Pipeline Hook" :: others) body)
  = ([], Panicked).
Proof.
  intros Hdecode Hstatus Hcommit. unfold serve. rewrite dispatch_pipeline.
  unfold pipelineHook. rewrite Hdecode.
  apply String.eqb_neq in Hstatus. rewrite Hstatus.
  rewrite (slice_to_short _ _ Hcommit). reflexivity.
Qed.

(** X15: a job event that succeeded or failed, with a hash of at least 7
    characters and a repository URL of the form [host:namespace/rest],
    produces one line, rendered with the hash cut and the status replaced
    by its phrase, and sent to the channels of the project named by the
    repository name and by the namespace read from the URL. *)
Theorem job_line (jobEvent : JobEvent.t) (host namespace rest : string) :
  Body.JobEvent body = Some jobEvent ->
  JobEvent.Status jobEvent = "success" \/ JobEvent.Status jobEvent = "failed" ->
  (7 <= String.length (JobEvent.Commit jobEvent))%nat ->
  Repository.URL (JobEvent.Repository jobEvent)
  = host +:+ ":" +:+ namespace +:+ "/" +:+ rest ->
  occurrences ":" host = 0%nat ->
  occurrences ":" namespace = 0%nat ->
  occurrences "/" namespace = 0%nat ->
  serve Execute UnescapeString channelMapping (Request.mk ("Job Hook" :: others) body)
  = (Executed (jobCompleteTemplate, OfJob (normal_job jobEvent))
       :: map (fun channelName =>
                 Privmsg channelName
                   (fst (Execute jobCompleteTemplate (OfJob (normal_job jobEvent)))))
            (channelNames (Repository.Name (JobEvent.Repository jobEvent)) namespace
               channelMapping),
     Completed).
Proof.
  intros Hdecode Hstatus Hcommit Hurl Hhost Hcolon Hslash.
  destruct (namespace_of_url host namespace rest Hhost Hcolon Hslash)
    as [path [Hpath Hns]].
  unfold serve. rewrite dispatch_job. unfold jobHook. rewrite Hdecode.
  replace (negb (String.eqb (JobEvent.Status jobEvent) "success")
           && negb (String.eqb (JobEvent.Status jobEvent) "failed")) with false
    by (destruct Hstatus as [-> | ->]; reflexivity).
  rewrite (slice_to_long _ _ Hcommit), bind_must.
  cbn [JobEvent.set_Commit JobEvent.Repository JobEvent.Status].
  rewrite Hurl, Hpath, bind_must, Hns, bind_must.
  rewrite bind_execute, <- (bind_ret tt (fun _ => sendMessage _ _ _ _)).
  reflexivity.
Qed.

(** X16: a job event that succeeded or failed panics, with nothing
    rendered, when its hash has fewer than 7 characters or when its
    repository URL holds no colon. *)
Theorem job_malformed_panics (jobEvent : JobEvent.t) :
  Body.JobEvent body = Some jobEvent ->
  JobEvent.Status jobEvent = "success" \/ JobEvent.Status jobEvent = "failed" ->
  (String.length (JobEvent.Commit jobEvent) < 7)%nat
  \/ occurrences ":" (Repository.URL (JobEvent.Repository jobEvent)) = 0%nat ->
  serve Execute UnescapeString channelMapping (Request.mk ("Job Hook" :: others) body)
  = ([], Panicked).
Proof.
  intros Hdecode Hstatus Hbad.
  unfold serve. rewrite dispatch_job. unfold jobHook. rewrite Hdecode.
  replace (negb (String.eqb (JobEvent.Status jobEvent) "success")
           && negb (String.eqb (JobEvent.Status jobEvent) "failed")) with false
    by (destruct Hstatus as [-> | ->]; reflexivity).
  destruct (slice_to (JobEvent.Commit jobEvent) 7) as [commit|] eqn:Hslice;
    [|reflexivity].
  destruct Hbad as [Hshort|Hurl];
    [rewrite (slice_to_short _ _ Hshort) in Hslice; discriminate|].
  rewrite bind_must. cbn [JobEvent.set_Commit JobEvent.Repository].
  replace (index (strings.Split (Repository.URL (JobEvent.Repository jobEvent)) ":") 1)
    with (@None string).
  - reflexivity.
  - symmetry. unfold index. apply lookup_ge_None. rewrite Split_length, Hurl. lia.
Qed.

(** X17: an issue or merge event whose action is a key of [HookActions]
    produces one line, rendered with the verb of the table in place of
    the action, sent to the channels of the project. *)
Theorem known_action_line (action verb : string) :
  HookActions !! action = Some verb ->
  (forall (eventType : string) (issueEvent : IssueEvent.t),
      eventType = "Issue Hook" \/ eventType = "Issue Event" ->
      Body.IssueEvent body = Some issueEvent ->
      Issue.Action (IssueEvent.Issue issueEvent) = action ->
      serve Execute UnescapeString channelMapping (Request.mk (eventType :: others) body)
      = (line Execute channelMapping issueTemplate
           (OfIssue (with_issue_action issueEvent verb))
           (IssueEvent.Project issueEvent),
         Completed))
  /\ (forall (eventType : string) (mergeEvent : MergeEvent.t),
      eventType = "Merge Request Hook" \/ eventType = "Merge Request Event" ->
      Body.MergeEvent body = Some mergeEvent ->
      Merge.Action (MergeEvent.Merge mergeEvent) = action ->
      serve Execute UnescapeString channelMapping (Request.mk (eventType :: others) body)
      = (line Execute channelMapping mergeTemplate
           (OfMerge (with_merge_action mergeEvent verb))
           (MergeEvent.Project mergeEvent),
         Completed)).
Proof.
  intros Hverb. split.
  - intros eventType issueEvent Hlabel Hdecode Haction.
    unfold serve. rewrite dispatch_issue by exact Hlabel.
    unfold issueHook, lookup_string. rewrite Hdecode, Haction, Hverb.
    rewrite bind_execute, <- (bind_ret tt (fun _ => sendMessage _ _ _ _)).
    reflexivity.
  - intros eventType mergeEvent Hlabel Hdecode Haction.
    unfold serve. rewrite dispatch_merge by exact Hlabel.
    unfold mergeRequestHook, lookup_string. rewrite Hdecode, Haction, Hverb.
    rewrite bind_execute, <- (bind_ret tt (fun _ => sendMessage _ _ _ _)).
    reflexivity.
Qed.

End PipelineAndJob.

Lemma pipeline_line_witness :
  serve sample_Execute sample_Unescape default_table
    (Request.mk ["Pipeline Hook"] (pipeline_body (sample_pipeline "failed" hash_a)))
  = ([ Executed (pipelineCompleteTemplate,
                 OfPipeline (normal_pipeline (sample_pipeline "failed" hash_a)));
       Privmsg "#default" "pipeline complete notification" ],
     Completed)
  /\ Pipeline.Commit (PipelineEvent.Pipeline
                        (normal_pipeline (sample_pipeline "failed" hash_a)))
     = "1f3870b".
Proof.
  split; [|reflexivity].
  rewrite (pipeline_line sample_Execute sample_Unescape default_table []
             (pipeline_body (sample_pipeline "failed" hash_a))
             (sample_pipeline "failed" hash_a) eq_refl).
  - vm_compute. reflexivity.
  - simpl. tauto.
  - simpl. lia.
Defined.

Lemma pipeline_short_hash_panics_witness :
  serve sample_Execute sample_Unescape default_table
    (Request.mk ["Pipeline Hook"] (pipeline_body (sample_pipeline "canceled" "1f387")))
  = ([], Panicked).
Proof.
  apply (pipeline_short_hash_panics sample_Execute sample_Unescape default_table []
           (pipeline_body (sample_pipeline "canceled" "1f387"))
           (sample_pipeline "canceled" "1f387") eq_refl).
  - simpl. discriminate.
  - simpl. lia.
Defined.

Lemma job_line_witness :
  delivered (fst (serve sample_Execute sample_Unescape sample_table
                    (Request.mk ["Job Hook"] (job_body (sample_job "success")))))
  = [("#bridge", "job complete notification")].
Proof.
  rewrite (job_line sample_Execute sample_Unescape sample_table []
             (job_body (sample_job "success")) (sample_job "success")
             "git@git.example" "infra" "bridge.git" eq_refl).
  - vm_compute. reflexivity.
  - left. reflexivity.
  - simpl. lia.
  - reflexivity.
  - reflexivity.
  - reflexivity.
  - reflexivity.
Defined.

Lemma job_malformed_panics_witness :
  serve sample_Execute sample_Unescape sample_table
    (Request.mk ["Job Hook"]
       (job_body (JobEvent.mk 44 "test" "failed" 0%float hash_a
                    (Repository.mk "bridge" "" "/srv/git/infra/bridge.git"))))
  = ([], Panicked).
Proof.
  apply (job_malformed_panics sample_Execute sample_Unescape sample_table []
           (job_body (JobEvent.mk 44 "test" "failed" 0%float hash_a
                        (Repository.mk "bridge" "" "/srv/git/infra/bridge.git")))
           (JobEvent.mk 44 "test" "failed" 0%float hash_a
              (Repository.mk "bridge" "" "/srv/git/infra/bridge.git")) eq_refl).
  - right. reflexivity.
  - right. reflexivity.
Defined.

Lemma known_action_line_witness :
  serve sample_Execute sample_Unescape default_table
    (Request.mk ["Merge Request Event"] (merge_body (sample_merge "merge")))
  = ([ Executed (mergeTemplate, OfMerge (sample_merge "merged"));
       Privmsg "#default" "merge notification" ],
     Completed).
Proof.
  rewrite (proj2 (known_action_line sample_Execute sample_Unescape default_table []
                    (merge_body (sample_merge "merge")) "merge" "merged" eq_refl)
             "Merge Request Event" (sample_merge "merge")).
  - vm_compute. reflexivity.
  - right. reflexivity.
  - reflexivity.
  - reflexivity.
Defined.

(** ** The push case of the small variant *)

Section PushV1.

Variable Execute : V1.Template -> V1.Data -> string * bool.
Variable channelMapping : Mapping.




(** X19: the small variant knows two event types only: a request whose
    type is neither "Issue Hook" nor "Push Hook" (a "Push Event" or a
    "Pipeline Hook", say) does nothing, and a request without the header
    panics. *)
Theorem other_events_ignored_v1 (others : list string) (body : V1.Body.t) :
  (forall eventType,
      eventType <> "Issue Hook" -> eventType <> "Push Hook" ->
      V1.serve Execute channelMapping (V1.Request.mk (eventType :: others) body)
      = ([], Completed))
  /\ V1.serve Execute channelMapping (V1.Request.mk [] body) = ([], Panicked).
Proof.
  split; [|reflexivity].
  intros eventType Hissue Hpush.
  unfold V1.serve, V1.CreateFunctionNotifyFunction.
  change (index (V1.Request.Header (V1.Request.mk (?x :: others) body)) 0) with (Some x).
  rewrite bind_must. apply String.eqb_neq in Hissue, Hpush.
  rewrite Hissue, Hpush. reflexivity.
Qed.

End PushV1.


Lemma other_events_ignored_v1_witness :
  V1.serve sample_Execute_v1 default_table
    (V1.Request.mk ["Push Event"]
       (V1.Body.mk None (Some (sample_push_v1 four_commits_v1))))
  = ([], Completed).
Proof.
  apply (proj1 (other_events_ignored_v1 sample_Execute_v1 default_table []
                  (V1.Body.mk None (Some (sample_push_v1 four_commits_v1))))
           "Push Event"); discriminate.
Defined.

(** ** When the process exits *)

Section NeverExits.

Context {R : Type}.

Lemma never_exits_ret {A : Type} (a : A) : never_exits (mret a : Run R A).
Proof. discriminate. Qed.

Lemma never_exits_return {A : Type} : never_exits (stop Return : Run R A).
Proof. discriminate. Qed.

Lemma never_exits_must {A : Type} (o : option A) : never_exits (must o : Run R A).
Proof. destruct o; discriminate. Qed.

Lemma never_exits_send (message projectName namespace : string)
    (channelMapping : Mapping) :
  never_exits (sendMessage message projectName namespace channelMapping : Run R unit).
Proof. discriminate. Qed.

Lemma never_exits_bind {A B : Type} (m : Run R A) (f : A -> Run R B) :
  never_exits m -> (forall a, never_exits (f a)) -> never_exits (m ≫= f).
Proof.
  unfold never_exits, mbind, Run_bind. intros Hm Hf.
  destruct m as [t1 [a|s]].
  - specialize (Hf a). destruct (f a) as [t2 r]. exact Hf.
  - cbn [snd] in *. intros Heq. apply Hm. injection Heq as ->. reflexivity.
Qed.

Lemma finish_exited (m : Run R unit) :
  snd (finish m) = Exited <-> snd m = inr Fatal.
Proof. destruct m as [t [[]|[]]]; cbn; split; congruence. Qed.

End NeverExits.

(** The steps of a run that cannot end the process. *)
Ltac never_exits_steps :=
  repeat first
    [ apply never_exits_ret
    | apply never_exits_return
    | apply never_exits_must
    | apply never_exits_send
    | discriminate
    | apply never_exits_bind; [|intros ?]
    | match goal with
      | |- never_exits (if ?b then _ else _) => destruct b
      | |- never_exits (let (_, _) := ?p in _) => destruct p
      end ].

Section Exits.

Variable Execute : Template -> Data -> string * bool.
Variable UnescapeString : string -> string.
Variable channelMapping : Mapping.

Lemma never_exits_range_commits (pushEvent : PushEvent.t) (commits : list Commit.t) :
  never_exits (range_commits Execute UnescapeString pushEvent channelMapping commits).
Proof.
  induction commits as [|commit rest IH]; cbn [range_commits].
  - apply never_exits_ret.
  - apply never_exits_bind; [apply never_exits_must|intros shortID].
    apply never_exits_bind; [discriminate|intros out].
    destruct (snd out : bool); [apply never_exits_return|].
    apply never_exits_bind; [apply never_exits_send|intros _; exact IH].
Qed.

Lemma never_exits_pushHook (body : Body.t) :
  never_exits (pushHook Execute UnescapeString channelMapping body).
Proof.
  unfold pushHook. destruct (Body.PushEvent body) as [e|]; [|discriminate].
  apply never_exits_bind; [apply never_exits_must|intros branch].
  cbv zeta. unfold execute.
  repeat first
    [ apply never_exits_range_commits
    | apply never_exits_ret
    | apply never_exits_must
    | apply never_exits_send
    | apply never_exits_bind; [|intros ?]
    | match goal with
      | |- never_exits (if ?b then _ else _) => destruct b
      | |- never_exits (let (_, _) := ?p in _) => destruct p
      | |- never_exits (_, inl _) => discriminate
      end ].
Qed.

(** X20: a request ends the process only when its event type is one of
    the pipeline, job, merge request and issue labels and its body does
    not decode as that event: a push request never does, nor does a
    request whose body decodes, however malformed the event. *)
Theorem exits_only_on_decode_failure (req : Request.t) :
  snd (serve Execute UnescapeString channelMapping req) = Exited ->
  exists eventType others,
    Request.Header req = eventType :: others
    /\ ((eventType = "Pipeline Hook" /\ Body.PipelineEvent (Request.Body req) = None)
        \/ (eventType = "Job Hook" /\ Body.JobEvent (Request.Body req) = None)
        \/ ((eventType = "Merge Request Hook" \/ eventType = "Merge Request Event")
            /\ Body.MergeEvent (Request.Body req) = None)
        \/ ((eventType = "Issue Hook" \/ eventType = "Issue Event")
            /\ Body.IssueEvent (Request.Body req) = None)).
Proof.
  unfold serve. rewrite finish_exited. destruct req as [[|eventType others] body].
  - discriminate.
  - intros Hfatal. exists eventType, others. split; [reflexivity|].
    revert Hfatal. unfold CreateFunctionNotifyFunction.
    change (index (Request.Header (Request.mk (?x :: others) body)) 0) with (Some x).
    rewrite bind_must. cbn [Request.Body].
    destruct (String.eqb eventType "Pipeline Hook") eqn:H1.
    { apply String.eqb_eq in H1. unfold pipelineHook.
      destruct (Body.PipelineEvent body) as [e|]; [|intros _; left; auto].
      intros Hfatal. exfalso. revert Hfatal.
      match goal with |- snd ?m = _ -> False => change (never_exits m) end.
      unfold execute. never_exits_steps. }
    destruct (String.eqb eventType "Job Hook") eqn:H2.
    { apply String.eqb_eq in H2. unfold jobHook.
      destruct (Body.JobEvent body) as [e|]; [|intros _; right; left; auto].
      intros Hfatal. exfalso. revert Hfatal.
      match goal with |- snd ?m = _ -> False => change (never_exits m) end.
      unfold execute. never_exits_steps. }
    destruct (String.eqb eventType "Merge Request Hook"
              || String.eqb eventType "Merge Request Event") eqn:H3.
    { apply orb_true_iff in H3. rewrite !String.eqb_eq in H3. unfold mergeRequestHook.
      destruct (Body.MergeEvent body) as [e|]; [|intros _; right; right; left; auto].
      intros Hfatal. exfalso. revert Hfatal.
      match goal with |- snd ?m = _ -> False => change (never_exits m) end.
      unfold execute. never_exits_steps. }
    destruct (String.eqb eventType "Issue Hook" || String.eqb eventType "Issue Event")
      eqn:H4.
    { apply orb_true_iff in H4. rewrite !String.eqb_eq in H4. unfold issueHook.
      destruct (Body.IssueEvent body) as [e|]; [|intros _; right; right; right; auto].
      intros Hfatal. exfalso. revert Hfatal.
      match goal with |- snd ?m = _ -> False => change (never_exits m) end.
      unfold execute. never_exits_steps. }
    destruct (String.eqb eventType "Push Hook" || String.eqb eventType "Push Event").
    { intros Hfatal. exfalso. exact (never_exits_pushHook body Hfatal). }
    discriminate.
Qed.

End Exits.

Lemma exits_only_on_decode_failure_witness :
  exists eventType others,
    Request.Header (Request.mk ["Issue Hook"] malformed_body) = eventType :: others
    /\ ((eventType = "Pipeline Hook"
         /\ Body.PipelineEvent (Request.Body (Request.mk ["Issue Hook"] malformed_body))
            = None)
        \/ (eventType = "Job Hook"
            /\ Body.JobEvent (Request.Body (Request.mk ["Issue Hook"] malformed_body))
               = None)
        \/ ((eventType = "Merge Request Hook" \/ eventType = "Merge Request Event")
            /\ Body.MergeEvent (Request.Body (Request.mk ["Issue Hook"] malformed_body))
               = None)
        \/ ((eventType = "Issue Hook" \/ eventType = "Issue Event")
            /\ Body.IssueEvent (Request.Body (Request.mk ["Issue Hook"] malformed_body))
               = None)).
Proof.
  apply (exits_only_on_decode_failure sample_Execute sample_Unescape default_table
           (Request.mk ["Issue Hook"] malformed_body)).
  reflexivity.
Defined.
